(** * Answer evaluator: weighting, aggregation, fallback and feedback

    A shallow embedding of [src/evaluator.py] (class
    [OptimizedAnswerEvaluator]) and the properties its specification
    states about it.

    Modelling conventions.
    - Python values that come out of [json.loads] (and the question
      dictionary, which has the same shape) are values of type [json].
      A Python [dict] with string keys is an association list read with
      [dict_get]; only look-ups are performed on them.
    - The local dictionary [weights] of [_get_weights], which the code
      builds with [dict.update], is a [gmap string Z].
    - Python numbers ([int] and [float]) are exact rationals [Q]: the true
      division [/] is exact and [round(x, n)] rounds the exact value to
      [n] decimals, half to even.  The rounding error of binary64 is not
      modelled; it matters to [round] only where a decimal number lies
      half-way between two results, and the closed examples stay away
      from such inputs.
    - Python [str] is [string] (a byte string); [lower], [strip],
      [startswith], [split] and [in] are the ASCII versions.
    - A Python exception is a value [Raise e] of the type [outcome]; the
      statements of a function run in the error monad in source order, so
      the first exception raised by the code is the one returned.
    - [json.loads] and the [repr] used by f-strings for values that are not
      strings belong to the Python library; they are parameters of the
      development ([json_loads], [py_repr]).  The assessor is an input:
      [evaluate_answer] takes the text of its response, and neither the
      prompt nor the call that obtains the response is modelled. *)

From Stdlib Require Import ZArith QArith Qround Lqa Lia String Ascii List Bool.
From stdpp Require Import base strings gmap.
Import ListNotations.

Set Warnings "-register-all".
Local Open Scope string_scope.

(** ** Python values *)

Inductive json : Type :=
| JNull : json
| JBool : bool -> json
| JNum : Q -> json
| JStr : string -> json
| JList : list json -> json
| JDict : list (string * json) -> json.

(** The exceptions the code can raise. *)
Inductive exn : Type :=
| JSONDecodeError
| KeyError
| IndexError
| AttributeError
| TypeError
| ZeroDivisionError.

Inductive outcome (A : Type) : Type :=
| Ok : A -> outcome A
| Raise : exn -> outcome A.

Arguments Ok {A} _.
Arguments Raise {A} _.

Definition bind {A B} (m : outcome A) (k : A -> outcome B) : outcome B :=
  match m with
  | Ok a => k a
  | Raise e => Raise e
  end.

Notation "'let*' x ':=' m 'in' k" := (bind m (fun x => k))
  (at level 10, x pattern, m at level 100, k at level 200).

Definition exn_eqb (a b : exn) : bool :=
  match a, b with
  | JSONDecodeError, JSONDecodeError | KeyError, KeyError
  | IndexError, IndexError | AttributeError, AttributeError
  | TypeError, TypeError | ZeroDivisionError, ZeroDivisionError => true
  | _, _ => false
  end.

(** [try: m except (e1, ..., en): h] *)
Definition try_except {A} (m : outcome A) (handled : list exn) (h : outcome A)
  : outcome A :=
  match m with
  | Ok a => Ok a
  | Raise e => if existsb (exn_eqb e) handled then h else Raise e
  end.

(** ** Dictionaries *)

Fixpoint assoc (k : string) (d : list (string * json)) : option json :=
  match d with
  | [] => None
  | (k', v) :: d' => if String.eqb k k' then Some v else assoc k d'
  end.

(** [o.get(k, default)]: only a [dict] has the method [get]. *)
Definition dict_get (o : json) (k : string) (default : json) : outcome json :=
  match o with
  | JDict d => Ok (match assoc k d with Some v => v | None => default end)
  | _ => Raise AttributeError
  end.

(** [o[k]] for a string key [k]: a missing key raises [KeyError]; a value
    that is not a [dict] cannot be indexed by a string. *)
Definition dict_item (o : json) (k : string) : outcome json :=
  match o with
  | JDict d => match assoc k d with Some v => Ok v | None => Raise KeyError end
  | _ => Raise TypeError
  end.

(** Truth value of a Python object, as tested by [if]. *)
Definition truthy (v : json) : bool :=
  match v with
  | JNull => false
  | JBool b => b
  | JNum q => negb (Qeq_bool q 0)
  | JStr s => negb (String.eqb s EmptyString)
  | JList l => match l with [] => false | _ => true end
  | JDict d => match d with [] => false | _ => true end
  end.

(** The number a value stands for in arithmetic: [bool] is a subtype of
    [int]; no other non-number takes part in the arithmetic of the
    evaluator without a [TypeError]. *)
Definition as_number (v : json) : outcome Q :=
  match v with
  | JNum q => Ok q
  | JBool b => Ok (if b then 1%Q else 0%Q)
  | _ => Raise TypeError
  end.

(** ** Strings *)

Definition lower_ascii (c : ascii) : ascii :=
  let n := nat_of_ascii c in
  if andb (Nat.leb 65 n) (Nat.leb n 90) then ascii_of_nat (n + 32) else c.

Fixpoint lower (s : string) : string :=
  match s with
  | EmptyString => EmptyString
  | String c s' => String (lower_ascii c) (lower s')
  end.

Fixpoint startswith (s p : string) : bool :=
  match p, s with
  | EmptyString, _ => true
  | String _ _, EmptyString => false
  | String a p', String b s' => andb (Ascii.eqb a b) (startswith s' p')
  end.

(** [p in s] *)
Fixpoint contains (s p : string) : bool :=
  orb (startswith s p)
      match s with
      | EmptyString => false
      | String _ s' => contains s' p
      end.

(** ** Weight selection *)

Definition weights0 : gmap string Z :=
  <["grammar" := 20%Z]> (<["spelling" := 15%Z]>
    (<["vocabulary" := 25%Z]> (<["intent" := 40%Z]> ∅))).

(** [weights.update({k1: v1, ...})]: the pairs are inserted in order. *)
Definition update (w : gmap string Z) (kvs : list (string * Z)) : gmap string Z :=
  fold_left (fun m kv => <[kv.1 := kv.2]> m) kvs w.

Definition _get_weights (difficulty context : string) : gmap string Z :=
  let difficulty := lower difficulty in
  let context := lower context in
  let weights := weights0 in
  let weights :=
    if String.eqb difficulty "easy" then
      update weights
        [("spelling", 20); ("grammar", 25); ("vocabulary", 20); ("intent", 35)]%Z
    else if String.eqb difficulty "hard" then
      update weights
        [("intent", 50); ("vocabulary", 25); ("spelling", 10); ("grammar", 15)]%Z
    else weights in
  let weights :=
    if orb (contains context "comprehension") (contains context "reading") then
      update weights
        [("intent", 50); ("vocabulary", 25); ("spelling", 10); ("grammar", 15)]%Z
    else if contains context "spelling" then
      update weights [("spelling", 35); ("intent", 30)]%Z
    else if contains context "grammar" then
      update weights [("grammar", 35); ("intent", 30)]%Z
    else weights in
  weights.

(** ** Numbers *)

(** Rounding to the nearest integer, half to even. *)
Definition round_half_even (y : Q) : Z :=
  let f := Qfloor y in
  match (y - inject_Z f ?= 1 # 2)%Q with
  | Lt => f
  | Gt => (f + 1)%Z
  | Eq => if Z.even f then f else (f + 1)%Z
  end.

(** [round(x, n)] for [n >= 0]: the multiple of [10^-n] nearest to [x],
    the even one of the two when [x] lies half-way. *)
Definition py_round (x : Q) (n : nat) : Q :=
  let scale := inject_Z (10 ^ Z.of_nat n) in
  Qred (inject_Z (round_half_even (x * scale)) / scale)%Q.

(** [x / y]: division by zero raises. *)
Definition py_div (x y : Q) : outcome Q :=
  if Qeq_bool y 0 then Raise ZeroDivisionError else Ok (x / y)%Q.

(** ** More strings *)

(** The ASCII characters for which [str.isspace] holds. *)
Definition is_space (c : ascii) : bool :=
  let n := nat_of_ascii c in
  orb (andb (Nat.leb 9 n) (Nat.leb n 13))
      (orb (andb (Nat.leb 28 n) (Nat.leb n 31)) (Nat.eqb n 32)).

Fixpoint lstrip (s : string) : string :=
  match s with
  | String c s' => if is_space c then lstrip s' else s
  | EmptyString => EmptyString
  end.

Fixpoint rstrip (s : string) : string :=
  match s with
  | EmptyString => EmptyString
  | String c s' =>
      match rstrip s' with
      | EmptyString => if is_space c then EmptyString else String c EmptyString
      | t => String c t
      end
  end.

Definition strip (s : string) : string := rstrip (lstrip s).

(** [s[n:]] *)
Fixpoint drop_prefix (n : nat) (s : string) : string :=
  match n, s with
  | O, _ => s
  | S n', String _ s' => drop_prefix n' s'
  | S _, EmptyString => EmptyString
  end.

Fixpoint rev_string (acc : list ascii) (tl : string) : string :=
  match acc with
  | [] => tl
  | c :: acc' => rev_string acc' (String c tl)
  end.

(** [s.split(sep)] for a non-empty [sep], scanning left to right: [skip]
    counts the characters of a separator still to be passed over and [cur]
    holds the current piece, reversed. *)
Fixpoint split_from (sep : string) (s : string) (skip : nat) (cur : list ascii)
  : list string :=
  match s with
  | EmptyString => [rev_string cur EmptyString]
  | String c s' =>
      match skip with
      | S k => split_from sep s' k cur
      | O =>
          if startswith s sep
          then rev_string cur EmptyString
                 :: split_from sep s' (String.length sep - 1) []
          else split_from sep s' 0 (c :: cur)
      end
  end.

Definition split (s sep : string) : list string := split_from sep s 0 [].

(** [sep.join(l)] *)
Fixpoint join (sep : string) (l : list string) : string :=
  match l with
  | [] => EmptyString
  | [x] => x
  | x :: l' => x ++ sep ++ join sep l'
  end.

(** ** The evaluation result

    The dictionary returned by [evaluate_answer], one record per nested
    dictionary.  Fields that the code copies from its inputs without
    looking at them keep the type [json]. *)

Record PartialScores := {
  ps_intent : Q;
  ps_vocabulary : Q;
  ps_spelling : Q;
  ps_grammar : Q
}.

Record IntentAnalysis := {
  intent_match_score : json;
  understood_concept : json;
  key_concepts_identified : json;
  key_concepts_missed : json;
  intent_reasoning : json
}.

Record VocabularyAnalysis := {
  vocabulary_score : json;
  appropriate_words : json;
  suggested_improvements : json;
  vocabulary_reasoning : json
}.

Record SpellingAnalysis := {
  spelling_score : json;
  misspelled_words : json;
  phonetic_attempts : json;
  spelling_reasoning : json
}.

Record GrammarAnalysis := {
  grammar_score : json;
  grammar_errors : json;
  grammar_strengths : json;
  grammar_reasoning : json
}.

Record EvaluationResult := {
  question_id : json;
  final_score : Q;
  max_score : json;
  percentage : Q;
  partial_scores : PartialScores;
  intent_analysis : IntentAnalysis;
  vocabulary_analysis : VocabularyAnalysis;
  spelling_analysis : SpellingAnalysis;
  grammar_analysis : GrammarAnalysis;
  remarks : string;
  suggestions : string
}.

(** ** Feedback *)

(** [l.append(x)] *)
Definition list_append {A} (l : list A) (x : A) : list A := (l ++ [x])%list.

Definition tone (percentage : Q) : string :=
  if Qle_bool 90 percentage then "Excellent work!"
  else if Qle_bool 75 percentage then "Great job!"
  else if Qle_bool 60 percentage then "Good effort!"
  else if Qle_bool 40 percentage then "Nice try!"
  else "Keep practicing!".

Definition _generate_remarks (percentage : Q) (result : json) : outcome string :=
  let remarks := [tone percentage] in
  let* intent := dict_item result "intent" in
  let* understood := dict_get intent "understood" JNull in
  let remarks :=
    if truthy understood then list_append remarks "You understood the main idea."
    else remarks in
  let* spelling := dict_item result "spelling" in
  let* phonetic_tries := dict_get spelling "phonetic_tries" JNull in
  let remarks :=
    if truthy phonetic_tries then list_append remarks "Good phonetic spelling attempts!"
    else remarks in
  Ok (join " " remarks).

(** The items of a list handed to [str.join]: strings only. *)
Fixpoint str_items (l : list json) : outcome (list string) :=
  match l with
  | [] => Ok []
  | JStr s :: l' => let* r := str_items l' in Ok (s :: r)
  | _ :: _ => Raise TypeError
  end.

Fixpoint chars (s : string) : list string :=
  match s with
  | EmptyString => []
  | String c s' => String c EmptyString :: chars s'
  end.

(** [v[:n]] as [', '.join] receives it.  A list is cut and must hold
    strings; a string is cut and joined character by character; a number,
    a boolean or a dictionary cannot be sliced (for a dictionary the class
    of the exception depends on the Python version; none is caught). *)
Definition slice_strs (v : json) (n : nat) : outcome (list string) :=
  match v with
  | JList l => str_items (firstn n l)
  | JStr s => Ok (firstn n (chars s))
  | _ => Raise TypeError
  end.

(** [v[0]] for a value [v] that passed the truth test.  The keys of a
    dictionary are strings, so the key [0] is never found. *)
Definition item0 (v : json) : outcome json :=
  match v with
  | JList (x :: _) => Ok x
  | JList [] => Raise IndexError
  | JStr (String c _) => Ok (JStr (String c EmptyString))
  | JStr EmptyString => Raise IndexError
  | JDict _ => Raise KeyError
  | _ => Raise TypeError
  end.

Section Runtime.

(** [json.loads]: [None] stands for [json.JSONDecodeError]. *)
Variable json_loads : string -> option json.

(** The text an f-string produces for a value that is neither a string,
    [None] nor a boolean. *)
Variable py_repr : json -> string.

Definition format_value (v : json) : string :=
  match v with
  | JStr s => s
  | JNull => "None"
  | JBool true => "True"
  | JBool false => "False"
  | _ => py_repr v
  end.

Definition _generate_suggestions (result : json) : outcome string :=
  let suggestions : list string := [] in
  (* Intent *)
  let* intent := dict_item result "intent" in
  let* missed := dict_get intent "concepts_missed" (JList []) in
  let* suggestions :=
    if truthy missed then
      let* firsts := slice_strs missed 2 in
      Ok (list_append suggestions ("Include: " ++ join ", " firsts))
    else Ok suggestions in
  (* Vocabulary *)
  let* vocabulary := dict_item result "vocabulary" in
  let* improve := dict_get vocabulary "improve" (JList []) in
  let* suggestions :=
    if truthy improve then
      let* tip := item0 improve in
      Ok (list_append suggestions ("Word tip: " ++ format_value tip))
    else Ok suggestions in
  (* Spelling *)
  let* spelling := dict_item result "spelling" in
  let* errors := dict_get spelling "errors" (JList []) in
  let* suggestions :=
    if truthy errors then
      let* err := item0 errors in
      let* word := dict_get err "word" JNull in
      let* correct := dict_get err "correct" JNull in
      Ok (list_append suggestions ("Spelling: '" ++ format_value word ++ "' → '"
                            ++ format_value correct ++ "'"))
    else Ok suggestions in
  (* Grammar *)
  let* grammar := dict_item result "grammar" in
  let* grammar_errors := dict_get grammar "errors" (JList []) in
  let* suggestions :=
    if truthy grammar_errors then
      let* err := item0 grammar_errors in
      let* fix_text := dict_get err "fix" (JStr "Check structure") in
      Ok (list_append suggestions ("Grammar: " ++ format_value fix_text))
    else Ok suggestions in
  Ok (match suggestions with
      | [] => "Keep up the good work!"
      | _ => join " | " (firstn 3 suggestions)
      end).

(** *** Parsing the assessor's response (the body of the [try]) *)

Definition clean_content (content : string) : outcome string :=
  let content := strip content in
  if startswith content "```" then
    let* content :=
      match nth_error (split content "```") 1 with
      | Some piece => Ok piece
      | None => Raise IndexError
      end in
    let content :=
      if startswith content "json" then drop_prefix 4 content else content in
    Ok (strip content)
  else Ok content.

Definition loads (content : string) : outcome json :=
  match json_loads content with
  | Some v => Ok v
  | None => Raise JSONDecodeError
  end.

(** [result.get(dimension, {}).get("score", 0)] *)
Definition get_score (result : json) (dimension : string) : outcome json :=
  let* d := dict_get result dimension (JDict []) in
  dict_get d "score" (JNum 0).

Definition parse_response (content : string)
  : outcome (json * (json * json * json * json)) :=
  let* content := clean_content content in
  let* result := loads content in
  let* intent_score := get_score result "intent" in
  let* vocab_score := get_score result "vocabulary" in
  let* spelling_score := get_score result "spelling" in
  let* grammar_score := get_score result "grammar" in
  Ok (result, (intent_score, vocab_score, spelling_score, grammar_score)).

(** The four dimension objects of the fallback judgment. *)
Definition fallback_intent : list (string * json) :=
  [("score", JNum 50); ("understood", JBool true); ("concepts_right", JList []);
   ("concepts_missed", JList []); ("note", JStr "Parse error")].
Definition fallback_vocabulary : list (string * json) :=
  [("score", JNum 50); ("good_words", JList []); ("improve", JList []);
   ("note", JStr "Parse error")].
Definition fallback_spelling : list (string * json) :=
  [("score", JNum 50); ("errors", JList []); ("phonetic_tries", JList []);
   ("note", JStr "Parse error")].
Definition fallback_grammar : list (string * json) :=
  [("score", JNum 50); ("errors", JList []); ("strengths", JList []);
   ("note", JStr "Parse error")].

(** The judgment substituted in the [except] branch. *)
Definition fallback_result : json :=
  JDict [("intent", JDict fallback_intent);
         ("vocabulary", JDict fallback_vocabulary);
         ("spelling", JDict fallback_spelling);
         ("grammar", JDict fallback_grammar)].

Definition parse_or_fallback (content : string)
  : outcome (json * (json * json * json * json)) :=
  try_except (parse_response content) [JSONDecodeError; KeyError]
    (Ok (fallback_result, (JNum 50, JNum 50, JNum 50, JNum 50))).

(** *** Aggregation *)

(** [weights[k]] *)
Definition weights_item (weights : gmap string Z) (k : string) : outcome Q :=
  match weights !! k with
  | Some w => Ok (inject_Z w)
  | None => Raise KeyError
  end.

(** [value.lower()] exists for strings only. *)
Definition as_str (v : json) : outcome string :=
  match v with
  | JStr s => Ok s
  | _ => Raise AttributeError
  end.

(** The arithmetic of [evaluate_answer] from [weighted_avg] to
    [percentage].  The weighted sum multiplies each score by an integer
    weight and adds the products, which raises [TypeError] as soon as a
    score is not a number (a string or list score survives the
    multiplication, not the sum or the division by 100); [as_number]
    stands for that test. *)
Definition aggregate (weights : gmap string Z)
    (intent_score vocab_score spelling_score grammar_score max_score : json)
  : outcome (Q * Q * PartialScores) :=
  let* wi := weights_item weights "intent" in
  let* i := as_number intent_score in
  let* wv := weights_item weights "vocabulary" in
  let* v := as_number vocab_score in
  let* ws := weights_item weights "spelling" in
  let* s := as_number spelling_score in
  let* wg := weights_item weights "grammar" in
  let* g := as_number grammar_score in
  let weighted_avg := ((i * wi + v * wv + s * ws + g * wg) / 100)%Q in
  let* m := as_number max_score in
  let final_score := (weighted_avg / 100 * m)%Q in
  let partial_scores :=
    {| ps_intent := py_round (i / 100 * (wi / 100) * m) 2;
       ps_vocabulary := py_round (v / 100 * (wv / 100) * m) 2;
       ps_spelling := py_round (s / 100 * (ws / 100) * m) 2;
       ps_grammar := py_round (g / 100 * (wg / 100) * m) 2 |} in
  let* ratio := py_div final_score m in
  let percentage := (ratio * 100)%Q in
  Ok (final_score, percentage, partial_scores).

(** *** [evaluate_answer]

    [content] is [response.content], the text the assessor returned; the
    construction of the prompt and the call [self.llm.invoke] are not
    modelled. *)
Definition evaluate_answer (question_data : json) (content : string)
  : outcome EvaluationResult :=
  let* question_id := dict_get question_data "question_id" (JStr EmptyString) in
  let* question_text :=
    dict_get question_data "question_text" (JStr EmptyString) in
  let* correct_answer_d := dict_get question_data "correct_answer" (JDict []) in
  let* correct_answer :=
    dict_get correct_answer_d "option_text" (JStr EmptyString) in
  let* context := dict_get question_data "context" (JStr EmptyString) in
  let* difficulty := dict_get question_data "difficulty" (JStr "Medium") in
  let* max_score := dict_get question_data "max_score" (JNum 1) in
  let* (result, (intent_score, vocab_score, spelling_score, grammar_score)) :=
    parse_or_fallback content in
  let* difficulty_s := as_str difficulty in
  let* context_s := as_str context in
  let weights := _get_weights difficulty_s context_s in
  let* (final_score, percentage, partial_scores) :=
    aggregate weights intent_score vocab_score spelling_score grammar_score
      max_score in
  let* remarks := _generate_remarks percentage result in
  let* suggestions := _generate_suggestions result in
  let* intent := dict_item result "intent" in
  let* understood := dict_get intent "understood" (JBool true) in
  let* concepts_right := dict_get intent "concepts_right" (JList []) in
  let* concepts_missed := dict_get intent "concepts_missed" (JList []) in
  let* intent_note := dict_get intent "note" (JStr EmptyString) in
  let* vocabulary := dict_item result "vocabulary" in
  let* good_words := dict_get vocabulary "good_words" (JList []) in
  let* improve := dict_get vocabulary "improve" (JList []) in
  let* vocabulary_note := dict_get vocabulary "note" (JStr EmptyString) in
  let* spelling := dict_item result "spelling" in
  let* spelling_errors := dict_get spelling "errors" (JList []) in
  let* phonetic_tries := dict_get spelling "phonetic_tries" (JList []) in
  let* spelling_note := dict_get spelling "note" (JStr EmptyString) in
  let* grammar := dict_item result "grammar" in
  let* errors := dict_get grammar "errors" (JList []) in
  let* strengths := dict_get grammar "strengths" (JList []) in
  let* grammar_note := dict_get grammar "note" (JStr EmptyString) in
  Ok {| question_id := question_id;
        final_score := py_round final_score 2;
        max_score := max_score;
        percentage := py_round percentage 1;
        partial_scores := partial_scores;
        intent_analysis :=
          {| intent_match_score := intent_score;
             understood_concept := understood;
             key_concepts_identified := concepts_right;
             key_concepts_missed := concepts_missed;
             intent_reasoning := intent_note |};
        vocabulary_analysis :=
          {| vocabulary_score := vocab_score;
             appropriate_words := good_words;
             suggested_improvements := improve;
             vocabulary_reasoning := vocabulary_note |};
        spelling_analysis :=
          {| spelling_score := spelling_score;
             misspelled_words := spelling_errors;
             phonetic_attempts := phonetic_tries;
             spelling_reasoning := spelling_note |};
        grammar_analysis :=
          {| grammar_score := grammar_score;
             grammar_errors := errors;
             grammar_strengths := strengths;
             grammar_reasoning := grammar_note |};
        remarks := remarks;
        suggestions := suggestions |}.

End Runtime.

(** ** A decoder for closed examples

    [json_loads_basic] decodes the JSON texts built from objects, arrays,
    strings without escape sequences, decimal numbers without exponent and
    the literals [true], [false] and [null]; it rejects every other text.
    On a text of that fragment, and on a text that is not JSON at all, it
    returns what [json.loads] returns.  The general theorems hold for every
    decoder; this one instantiates them on concrete responses. *)

Definition is_json_ws (c : ascii) : bool :=
  let n := nat_of_ascii c in
  orb (orb (Nat.eqb n 32) (Nat.eqb n 9)) (orb (Nat.eqb n 10) (Nat.eqb n 13)).

Fixpoint skip_ws (s : string) : string :=
  match s with
  | String c s' => if is_json_ws c then skip_ws s' else s
  | EmptyString => EmptyString
  end.

Definition digit_of (c : ascii) : option Z :=
  let n := nat_of_ascii c in
  if andb (Nat.leb 48 n) (Nat.leb n 57) then Some (Z.of_nat (n - 48)) else None.

(** Reads a run of digits: the value so far, the number of digits read and
    the rest of the text. *)
Fixpoint read_digits (s : string) (acc : Z) (count : nat) : Z * nat * string :=
  match s with
  | String c s' =>
      match digit_of c with
      | Some d => read_digits s' (acc * 10 + d)%Z (S count)
      | None => (acc, count, s)
      end
  | EmptyString => (acc, count, s)
  end.

(** An unsigned number: an integer part without a superfluous leading zero,
    then an optional fraction. *)
Definition read_unsigned (s : string) : option (Q * string) :=
  match read_digits s 0 0 with
  | (_, O, _) => None
  | (ip, S k, rest) =>
      if andb (startswith s "0") (negb (Nat.eqb k 0)) then None
      else
        match rest with
        | String "."%char rest' =>
            match read_digits rest' 0 0 with
            | (_, O, _) => None
            | (fp, n, rest'') =>
                Some ((inject_Z ip
                       + inject_Z fp / inject_Z (10 ^ Z.of_nat n))%Q, rest'')
            end
        | _ => Some (inject_Z ip, rest)
        end
  end.

(** The body of a string up to the closing quote; escapes and control
    characters are not accepted. *)
Fixpoint read_string (s : string) (acc : list ascii) : option (string * string) :=
  match s with
  | EmptyString => None
  | String c s' =>
      if Ascii.eqb c "034"%char then Some (rev_string acc EmptyString, s')
      else if orb (Ascii.eqb c "\"%char) (Nat.ltb (nat_of_ascii c) 32) then None
      else read_string s' (c :: acc)
  end.

(** [d[k] = v] on the association list. *)
Fixpoint dict_set (k : string) (v : json) (d : list (string * json))
  : list (string * json) :=
  match d with
  | [] => [(k, v)]
  | (k', v') :: d' =>
      if String.eqb k k' then (k, v) :: d' else (k', v') :: dict_set k v d'
  end.

Fixpoint parse_value (fuel : nat) (s : string) : option (json * string) :=
  match fuel with
  | O => None
  | S fuel' =>
      match skip_ws s with
      | EmptyString => None
      | String c r =>
          if Ascii.eqb c "{"%char then
            match skip_ws r with
            | String "}"%char r' => Some (JDict [], r')
            | r1 =>
                (fix members (k : nat) (s : string) (acc : list (string * json))
                   {struct k} : option (json * string) :=
                   match k with
                   | O => None
                   | S k' =>
                       match skip_ws s with
                       | String "034"%char s1 =>
                           match read_string s1 [] with
                           | Some (key, s2) =>
                               match skip_ws s2 with
                               | String ":"%char s3 =>
                                   match parse_value fuel' s3 with
                                   | Some (v, s4) =>
                                       let acc := dict_set key v acc in
                                       match skip_ws s4 with
                                       | String ","%char s5 => members k' s5 acc
                                       | String "}"%char s5 => Some (JDict acc, s5)
                                       | _ => None
                                       end
                                   | None => None
                                   end
                               | _ => None
                               end
                           | None => None
                           end
                       | _ => None
                       end
                   end) fuel' r1 []
            end
          else if Ascii.eqb c "["%char then
            match skip_ws r with
            | String "]"%char r' => Some (JList [], r')
            | r1 =>
                (fix elements (k : nat) (s : string) (acc : list json)
                   {struct k} : option (json * string) :=
                   match k with
                   | O => None
                   | S k' =>
                       match parse_value fuel' s with
                       | Some (v, s1) =>
                           match skip_ws s1 with
                           | String ","%char s2 => elements k' s2 (v :: acc)
                           | String "]"%char s2 =>
                               Some (JList (rev (v :: acc)), s2)
                           | _ => None
                           end
                       | None => None
                       end
                   end) fuel' r1 []
            end
          else if Ascii.eqb c "034"%char then
            match read_string r [] with
            | Some (str, r') => Some (JStr str, r')
            | None => None
            end
          else if Ascii.eqb c "-"%char then
            match read_unsigned r with
            | Some (q, r') => Some (JNum (- q)%Q, r')
            | None => None
            end
          else if startswith (String c r) "true" then
            Some (JBool true, drop_prefix 4 (String c r))
          else if startswith (String c r) "false" then
            Some (JBool false, drop_prefix 5 (String c r))
          else if startswith (String c r) "null" then
            Some (JNull, drop_prefix 4 (String c r))
          else
            match read_unsigned (String c r) with
            | Some (q, r') => Some (JNum q, r')
            | None => None
            end
      end
  end.

Definition json_loads_basic (s : string) : option json :=
  match parse_value (S (String.length s)) s with
  | Some (v, rest) =>
      match skip_ws rest with
      | EmptyString => Some v
      | _ => None
      end
  | None => None
  end.

(** Writing JSON texts: [q s] is [s] between double quotes. *)
Definition dq : string := String "034"%char EmptyString.
Definition q (s : string) : string := dq ++ s ++ dq.

(** The examples format strings only. *)
Definition no_repr (v : json) : string := EmptyString.

(** ** The weight selector of the specification *)

(** The weight set of the specification: four numbers, one per dimension. *)
Record WeightSet := {
  w_intent : Z;
  w_vocabulary : Z;
  w_spelling : Z;
  w_grammar : Z
}.

Definition weight_map (ws : WeightSet) : gmap string Z :=
  <["intent" := w_intent ws]> (<["vocabulary" := w_vocabulary ws]>
    (<["spelling" := w_spelling ws]> (<["grammar" := w_grammar ws]> ∅))).

(** Case-insensitive substring match against a lower-case keyword. *)
Definition mentions (text keyword : string) : bool :=
  contains (lower text) keyword.

(** The selector as the specification words it: a difficulty table, then
    the first context rule that matches, in the order comprehension or
    reading, spelling, grammar. *)
Definition difficulty_weights (difficulty : string) : WeightSet :=
  if String.eqb (lower difficulty) "easy" then
    {| w_intent := 35; w_vocabulary := 20; w_spelling := 20; w_grammar := 25 |}
  else if String.eqb (lower difficulty) "hard" then
    {| w_intent := 50; w_vocabulary := 25; w_spelling := 10; w_grammar := 15 |}
  else
    {| w_intent := 40; w_vocabulary := 25; w_spelling := 15; w_grammar := 20 |}.

Definition select_weights (difficulty context : string) : WeightSet :=
  let adjusted := difficulty_weights difficulty in
  if orb (mentions context "comprehension") (mentions context "reading") then
    {| w_intent := 50; w_vocabulary := 25; w_spelling := 10; w_grammar := 15 |}
  else if mentions context "spelling" then
    {| w_intent := 30; w_vocabulary := w_vocabulary adjusted;
       w_spelling := 35; w_grammar := w_grammar adjusted |}
  else if mentions context "grammar" then
    {| w_intent := 30; w_vocabulary := w_vocabulary adjusted;
       w_spelling := w_spelling adjusted; w_grammar := 35 |}
  else adjusted.

Definition weight_total (ws : WeightSet) : Z :=
  (w_intent ws + w_vocabulary ws + w_spelling ws + w_grammar ws)%Z.

(** ** The aggregation formulas of the specification *)

(** [weighted_avg = Σ (dimension_score_d * weight_d) / 100] *)
Definition weighted_avg_spec (i v s g : Q) (ws : WeightSet) : Q :=
  ((i * inject_Z (w_intent ws) + v * inject_Z (w_vocabulary ws)
    + s * inject_Z (w_spelling ws) + g * inject_Z (w_grammar ws)) / 100)%Q.

(** [final_score = (weighted_avg / 100) * max_score] *)
Definition final_score_spec (i v s g : Q) (ws : WeightSet) (m : Q) : Q :=
  (weighted_avg_spec i v s g ws / 100 * m)%Q.

(** [partial_d = round((score_d / 100) * (weight_d / 100) * max_score, 2)] *)
Definition partial_spec (score : Q) (weight : Z) (m : Q) : Q :=
  py_round (score / 100 * (inject_Z weight / 100) * m)%Q 2.

(** [sum(weights.values())] *)
Definition sum_values (weights : gmap string Z) : Z :=
  map_fold (fun _ w acc => (w + acc)%Z) 0%Z weights.

(** ** Inputs of the closed examples *)

(** A response that gives the four scores and nothing else. *)
Definition scores_content (i v s g : string) : string :=
  "{" ++ q "intent" ++ ": {" ++ q "score" ++ ": " ++ i ++ "}, "
      ++ q "vocabulary" ++ ": {" ++ q "score" ++ ": " ++ v ++ "}, "
      ++ q "spelling" ++ ": {" ++ q "score" ++ ": " ++ s ++ "}, "
      ++ q "grammar" ++ ": {" ++ q "score" ++ ": " ++ g ++ "}}".

Definition question (difficulty context : string) (max_score : Q) : json :=
  JDict [("question_id", JStr "q1"); ("question_text", JStr "Why is the sky blue?");
         ("correct_answer", JDict [("option_text", JStr "Light scatters.")]);
         ("context", JStr context); ("difficulty", JStr difficulty);
         ("max_score", JNum max_score)].

(** ** Judgments and feedback of the specification *)

(** [d.get(k, default)] on the association list itself. *)
Definition get_or (d : list (string * json)) (k : string) (default : json)
  : json :=
  match assoc k d with
  | Some v => v
  | None => default
  end.

(** The assessor's output has the four dimensions, each an object. *)
Definition judgment_dims (result : json)
    (intent vocabulary spelling grammar : list (string * json)) : Prop :=
  exists top,
    result = JDict top
    /\ assoc "intent" top = Some (JDict intent)
    /\ assoc "vocabulary" top = Some (JDict vocabulary)
    /\ assoc "spelling" top = Some (JDict spelling)
    /\ assoc "grammar" top = Some (JDict grammar).

(** The auxiliary lists the suggestions are built from, typed as in the
    data model: missed concepts are strings, spelling and grammar errors
    are objects; an absent list is empty. *)
Definition judgment_lists
    (intent vocabulary spelling grammar : list (string * json))
    (missed : list string) (improve : list json)
    (spelling_errors grammar_errors : list (list (string * json))) : Prop :=
  get_or intent "concepts_missed" (JList []) = JList (map JStr missed)
  /\ get_or vocabulary "improve" (JList []) = JList improve
  /\ get_or spelling "errors" (JList []) = JList (map JDict spelling_errors)
  /\ get_or grammar "errors" (JList []) = JList (map JDict grammar_errors).

(** Tone, then the understanding note, then the phonetic note, joined by
    single spaces. *)
Definition remarks_spec (percentage : Q) (understood phonetic_tries : json)
  : string :=
  join " "
    ([tone percentage]
     ++ (if truthy understood then ["You understood the main idea."] else [])
     ++ (if truthy phonetic_tries then ["Good phonetic spelling attempts!"]
         else []))%list.

Section FeedbackSpec.

Variable py_repr : json -> string.

(** The four fragment rules in their fixed order; a rule contributes its
    fragment only when its source list is not empty. *)
Definition missed_fragment (missed : list string) : list string :=
  match missed with
  | [] => []
  | _ => ["Include: " ++ join ", " (firstn 2 missed)]
  end.

Definition improve_fragment (improve : list json) : list string :=
  match improve with
  | [] => []
  | tip :: _ => ["Word tip: " ++ format_value py_repr tip]
  end.

Definition spelling_fragment (errors : list (list (string * json)))
  : list string :=
  match errors with
  | [] => []
  | err :: _ =>
      ["Spelling: '" ++ format_value py_repr (get_or err "word" JNull)
         ++ "' → '" ++ format_value py_repr (get_or err "correct" JNull)
         ++ "'"]
  end.

Definition grammar_fragment (errors : list (list (string * json)))
  : list string :=
  match errors with
  | [] => []
  | err :: _ =>
      ["Grammar: "
         ++ format_value py_repr (get_or err "fix" (JStr "Check structure"))]
  end.

Definition fragments (missed : list string) (improve : list json)
    (spelling_errors grammar_errors : list (list (string * json)))
  : list string :=
  (missed_fragment missed ++ improve_fragment improve
   ++ spelling_fragment spelling_errors
   ++ grammar_fragment grammar_errors)%list.

(** At most the first three fragments, joined by " | "; the fixed
    sentence when there is none. *)
Definition suggestions_spec (missed : list string) (improve : list json)
    (spelling_errors grammar_errors : list (list (string * json))) : string :=
  match fragments missed improve spelling_errors grammar_errors with
  | [] => "Keep up the good work!"
  | fs => join " | " (firstn 3 fs)
  end.

End FeedbackSpec.

(** ** Well-formed inputs and the result of the specification *)

(** The question dictionary gives the identifier [qid], a difficulty and a
    context that are strings, a numeric [max_score] and, under
    [correct_answer], an object; absent keys take the defaults of the
    code. *)
Definition question_fields (question_data qid : json)
    (difficulty context : string) (m : Q) : Prop :=
  exists fields answer,
    question_data = JDict fields
    /\ get_or fields "question_id" (JStr EmptyString) = qid
    /\ get_or fields "correct_answer" (JDict []) = JDict answer
    /\ get_or fields "context" (JStr EmptyString) = JStr context
    /\ get_or fields "difficulty" (JStr "Medium") = JStr difficulty
    /\ get_or fields "max_score" (JNum 1) = JNum m.

(** The four scores are numbers; an absent score is 0. *)
Definition judgment_scores
    (intent vocabulary spelling grammar : list (string * json))
    (i v s g : Q) : Prop :=
  get_or intent "score" (JNum 0) = JNum i
  /\ get_or vocabulary "score" (JNum 0) = JNum v
  /\ get_or spelling "score" (JNum 0) = JNum s
  /\ get_or grammar "score" (JNum 0) = JNum g.

Section ResultSpec.

Variable py_repr : json -> string.

(** The evaluation record the specification describes, from the
    question, the four dimension objects and their typed content. *)
Definition result_spec (qid : json) (difficulty context : string) (m : Q)
    (di dv ds dg : list (string * json)) (i v s g : Q)
    (missed : list string) (improve : list json)
    (serrs gerrs : list (list (string * json))) : EvaluationResult :=
  let ws := select_weights difficulty context in
  let final := final_score_spec i v s g ws m in
  let pct := (final / m * 100)%Q in
  {| question_id := qid;
     final_score := py_round final 2;
     max_score := JNum m;
     percentage := py_round pct 1;
     partial_scores :=
       {| ps_intent := partial_spec i (w_intent ws) m;
          ps_vocabulary := partial_spec v (w_vocabulary ws) m;
          ps_spelling := partial_spec s (w_spelling ws) m;
          ps_grammar := partial_spec g (w_grammar ws) m |};
     intent_analysis :=
       {| intent_match_score := JNum i;
          understood_concept := get_or di "understood" (JBool true);
          key_concepts_identified := get_or di "concepts_right" (JList []);
          key_concepts_missed := get_or di "concepts_missed" (JList []);
          intent_reasoning := get_or di "note" (JStr EmptyString) |};
     vocabulary_analysis :=
       {| vocabulary_score := JNum v;
          appropriate_words := get_or dv "good_words" (JList []);
          suggested_improvements := get_or dv "improve" (JList []);
          vocabulary_reasoning := get_or dv "note" (JStr EmptyString) |};
     spelling_analysis :=
       {| spelling_score := JNum s;
          misspelled_words := get_or ds "errors" (JList []);
          phonetic_attempts := get_or ds "phonetic_tries" (JList []);
          spelling_reasoning := get_or ds "note" (JStr EmptyString) |};
     grammar_analysis :=
       {| grammar_score := JNum g;
          grammar_errors := get_or dg "errors" (JList []);
          grammar_strengths := get_or dg "strengths" (JList []);
          grammar_reasoning := get_or dg "note" (JStr EmptyString) |};
     remarks := remarks_spec pct (get_or di "understood" JNull)
                  (get_or ds "phonetic_tries" JNull);
     suggestions := suggestions_spec py_repr missed improve serrs gerrs |}.

End ResultSpec.

(** A response without the "intent" dimension. *)
Definition no_intent_content : string :=
  "{" ++ q "vocabulary" ++ ": {" ++ q "score" ++ ": 70}, "
      ++ q "spelling" ++ ": {" ++ q "score" ++ ": 60}, "
      ++ q "grammar" ++ ": {" ++ q "score" ++ ": 90}}".

(** A response whose four dimensions are empty objects. *)
Definition bare_dims_content : string :=
  "{" ++ q "intent" ++ ": {}, " ++ q "vocabulary" ++ ": {}, "
      ++ q "spelling" ++ ": {}, " ++ q "grammar" ++ ": {}}".

(** A judgment in which the four suggestion rules all apply. *)
Definition full_intent : list (string * json) :=
  [("score", JNum 40); ("understood", JBool false);
   ("concepts_missed",
    JList [JStr "scattering"; JStr "wavelength"; JStr "atmosphere"])].
Definition full_vocabulary : list (string * json) :=
  [("score", JNum 55); ("improve", JList [JStr "say 'scatter'"; JStr "x"])].
Definition full_spelling : list (string * json) :=
  [("score", JNum 60);
   ("errors", JList [JDict [("word", JStr "becaus"); ("correct", JStr "because");
                            ("type", JStr "phonetic")]]);
   ("phonetic_tries", JList [JStr "becaus"])].
Definition full_grammar : list (string * json) :=
  [("score", JNum 70); ("errors", JList [JDict [("type", JStr "tense")]])].
Definition full_judgment : json :=
  JDict [("intent", JDict full_intent); ("vocabulary", JDict full_vocabulary);
         ("spelling", JDict full_spelling); ("grammar", JDict full_grammar)].

(** A run of [evaluate_answer] on a well-formed question with a non-zero
    max_score and a response that, once cleaned, decodes to a judgment of
    four dimension objects with numeric scores and typed lists. *)
Definition decoded_run (json_loads : string -> option json)
    (question_data qid : json) (content text : string)
    (difficulty context : string) (m : Q) (result : json)
    (di dv ds dg : list (string * json)) (i v s g : Q)
    (missed : list string) (improve : list json)
    (serrs gerrs : list (list (string * json))) : Prop :=
  question_fields question_data qid difficulty context m
  /\ ~ (m == 0)%Q
  /\ clean_content content = Ok text
  /\ json_loads text = Some result
  /\ judgment_dims result di dv ds dg
  /\ judgment_scores di dv ds dg i v s g
  /\ judgment_lists di dv ds dg missed improve serrs gerrs.

(** ** Exceptions a computation may raise *)



(** ** Fenced responses *)


(** ** The call to the assessor

    The part of [evaluate_answer] before the [try]: the extraction of the
    question fields, the prompt and the call [self.llm.invoke], with the
    evaluator object built by [__init__] and the function
    [quick_evaluate]. *)

Inductive message : Type :=
| SystemMessage (content : string)
| HumanMessage (content : string).

(** The keyword arguments given to [ChatOpenAI]; [api_key] is the value of
    [os.getenv], [None] when the variable is not set. *)
Record ChatOpenAI := {
  model : string;
  temperature : Q;
  api_key : option string
}.

Record OptimizedAnswerEvaluator := {
  llm : ChatOpenAI;
  model_name : string
}.

Definition __init__ (getenv : string -> option string)
    (model_name : string) (temperature : Q) : OptimizedAnswerEvaluator :=
  let temperature :=
    if contains model_name "gpt-5" then 1%Q else temperature in
  {| llm := {| model := model_name; temperature := temperature;
               api_key := getenv "OPENAI_API_KEY" |};
     model_name := model_name |}.

(** The first statements of [evaluate_answer]: the six look-ups. *)
Definition extract_question (question_data : json)
  : outcome (json * json * json * json * json * json) :=
  let* question_id := dict_get question_data "question_id" (JStr EmptyString) in
  let* question_text :=
    dict_get question_data "question_text" (JStr EmptyString) in
  let* correct_answer_d := dict_get question_data "correct_answer" (JDict []) in
  let* correct_answer :=
    dict_get correct_answer_d "option_text" (JStr EmptyString) in
  let* context := dict_get question_data "context" (JStr EmptyString) in
  let* difficulty := dict_get question_data "difficulty" (JStr "Medium") in
  let* max_score := dict_get question_data "max_score" (JNum 1) in
  Ok (question_id, question_text, correct_answer, context, difficulty,
      max_score).

Definition nl : string := String "010"%char EmptyString.

Definition system_prompt : string :=
  "You are an expert child literacy assessor. Return only valid JSON.".

(** What a run of the method gives: the outcome of the method when the
    assessor answered, or the failure of the call, which the method does
    not catch. *)
Inductive call_result (A : Type) : Type :=
| Returned (o : outcome A)
| ProviderFailed.

Arguments Returned {A} _.
Arguments ProviderFailed {A}.

Section Assessor.

(** [self.llm.invoke(messages)]: the text of the response, or [None] when
    the call raises. *)
Variable invoke : ChatOpenAI -> list message -> option string.
Variable json_loads : string -> option json.
Variable py_repr : json -> string.

(** The f-string of the prompt; the values of the question are formatted
    as an f-string formats them. *)
Definition build_prompt
    (question_text correct_answer : json) (student_answer : string)
    (difficulty context : json) : string :=
  join nl
    [ "Evaluate this student's answer across 4 dimensions.";
      EmptyString;
      "QUESTION: " ++ format_value py_repr question_text;
      "CORRECT ANSWER: " ++ format_value py_repr correct_answer;
      "STUDENT'S ANSWER: " ++ student_answer;
      "DIFFICULTY: " ++ format_value py_repr difficulty;
      "CONTEXT: " ++ format_value py_repr context;
      EmptyString;
      "Evaluate on these 4 dimensions:";
      EmptyString;
      "1. INTENT (Understanding): Did they grasp the main concept? (0-100)";
      "2. VOCABULARY (Word Choice): Appropriate words for age? (0-100)";
      "3. SPELLING (Accuracy): Consider phonetic attempts like " ++ q "becaus"
        ++ "→" ++ q "because" ++ " (0-100)";
      "4. GRAMMAR (Structure): Sentence structure, tense, agreement (0-100)";
      EmptyString;
      "Return ONLY valid JSON (no markdown, no explanation):";
      "{";
      "    " ++ q "intent" ++ ": {";
      "        " ++ q "score" ++ ": 0-100,";
      "        " ++ q "understood" ++ ": true/false,";
      "        " ++ q "concepts_right" ++ ": [" ++ q "list" ++ "],";
      "        " ++ q "concepts_missed" ++ ": [" ++ q "list" ++ "],";
      "        " ++ q "note" ++ ": " ++ q "brief";
      "    },";
      "    " ++ q "vocabulary" ++ ": {";
      "        " ++ q "score" ++ ": 0-100,";
      "        " ++ q "good_words" ++ ": [" ++ q "list" ++ "],";
      "        " ++ q "improve" ++ ": [" ++ q "suggestions" ++ "],";
      "        " ++ q "note" ++ ": " ++ q "brief";
      "    },";
      "    " ++ q "spelling" ++ ": {";
      "        " ++ q "score" ++ ": 0-100,";
      "        " ++ q "errors" ++ ": [{" ++ q "word" ++ ": " ++ q "wrong"
        ++ ", " ++ q "correct" ++ ": " ++ q "right" ++ ", " ++ q "type"
        ++ ": " ++ q "phonetic/typo" ++ "}],";
      "        " ++ q "phonetic_tries" ++ ": [" ++ q "list" ++ "],";
      "        " ++ q "note" ++ ": " ++ q "brief";
      "    },";
      "    " ++ q "grammar" ++ ": {";
      "        " ++ q "score" ++ ": 0-100,";
      "        " ++ q "errors" ++ ": [{" ++ q "type" ++ ": " ++ q "error"
        ++ ", " ++ q "fix" ++ ": " ++ q "correction" ++ "}],";
      "        " ++ q "strengths" ++ ": [" ++ q "list" ++ "],";
      "        " ++ q "note" ++ ": " ++ q "brief";
      "    }";
      "}" ].

(** The method with its call: the result and the calls made, in order.
    After the call the method goes on as [evaluate_answer] does on the
    text of the response; the look-ups that [evaluate_answer] repeats
    have no effect and give the same values. *)
Definition evaluate_answer_call (self : OptimizedAnswerEvaluator)
    (question_data : json) (student_answer : string)
  : call_result EvaluationResult * list (ChatOpenAI * list message) :=
  match extract_question question_data with
  | Raise e => (Returned (Raise e), [])
  | Ok (_, question_text, correct_answer, context, difficulty, _) =>
      let prompt :=
        build_prompt question_text correct_answer student_answer difficulty
          context in
      let messages := [SystemMessage system_prompt; HumanMessage prompt] in
      match invoke (llm self) messages with
      | None => (ProviderFailed, [(llm self, messages)])
      | Some content =>
          (Returned (evaluate_answer json_loads py_repr question_data content),
           [(llm self, messages)])
      end
  end.

Definition quick_evaluate (getenv : string -> option string)
    (question_data : json) (student_answer : string) (use_gpt4 : bool)
  : call_result EvaluationResult * list (ChatOpenAI * list message) :=
  let model := if use_gpt4 then "gpt-4" else "gpt-5-mini" in
  let evaluator := __init__ getenv model (1 # 5) in
  evaluate_answer_call evaluator question_data student_answer.

End Assessor.

(** An assessor that always answers [content], and one that always
    fails. *)
Definition answering (content : string)
  : ChatOpenAI -> list message -> option string :=
  fun _ _ => Some content.
Definition no_env (name : string) : option string := None.

(** * Properties *)

(** ** Strings and rounding *)

Example split_fenced :
  split "```json{}```tail" "```" = [EmptyString; "json{}"; "tail"].
Proof. reflexivity. Qed.
Example round_examples :
  (py_round (153 # 20) 2 = (153 # 20) /\ py_round (1 # 8) 2 = (3 # 25)
  /\ py_round (3 # 8) 2 = (19 # 50) /\ py_round (-(1 # 8)) 2 = (-3 # 25)
  /\ py_round (764 # 1000) 2 = (19 # 25))%Q.
Proof. vm_compute. repeat split. Qed.

Section Rounding.

Local Open Scope Q_scope.

Lemma round_half_even_range (y : Q) :
  (Qfloor y <= round_half_even y <= Qfloor y + 1)%Z.
Proof.
  unfold round_half_even.
  destruct (y - inject_Z (Qfloor y) ?= 1 # 2); [destruct (Z.even _) | |]; lia.
Qed.

Lemma round_half_even_mono (x y : Q) :
  x <= y -> (round_half_even x <= round_half_even y)%Z.
Proof.
  intros Hxy. pose proof (Qfloor_resp_le _ _ Hxy) as Hf.
  destruct (Z.eq_dec (Qfloor x) (Qfloor y)) as [E | N].
  - unfold round_half_even. rewrite E.
    destruct (x - inject_Z (Qfloor y) ?= 1 # 2) eqn:Cx;
      destruct (y - inject_Z (Qfloor y) ?= 1 # 2) eqn:Cy;
      try (destruct (Z.even (Qfloor y))); try lia;
      exfalso;
      repeat match goal with
             | H : (_ ?= _) = Eq |- _ => apply <- Qeq_alt in H
             | H : (_ ?= _) = Lt |- _ => apply <- Qlt_alt in H
             | H : (_ ?= _) = Gt |- _ => apply <- Qgt_alt in H
             end; lra.
  - pose proof (round_half_even_range x). pose proof (round_half_even_range y).
    lia.
Qed.

Lemma round_half_even_Z (z : Z) : round_half_even (inject_Z z) = z.
Proof.
  unfold round_half_even. rewrite Qfloor_Z.
  assert (E : (inject_Z z - inject_Z z ?= 1 # 2) = Lt).
  { rewrite <- Qlt_alt. lra. }
  rewrite E. reflexivity.
Qed.

Lemma round_half_even_proper (x y : Q) :
  x == y -> round_half_even x = round_half_even y.
Proof.
  intros H. unfold round_half_even. rewrite (Qfloor_comp _ _ H).
  assert (Hc : (x - inject_Z (Qfloor y) ?= 1 # 2)
               = (y - inject_Z (Qfloor y) ?= 1 # 2))
    by (rewrite H; reflexivity).
  rewrite Hc. reflexivity.
Qed.

Lemma scale_pos (n : nat) : 0 < inject_Z (10 ^ Z.of_nat n).
Proof.
  change 0 with (inject_Z 0). rewrite <- Zlt_Qlt.
  apply Z.pow_pos_nonneg; lia.
Qed.

(** Equal numbers round to the same fraction, whatever their
    representation. *)
Lemma py_round_proper (x y : Q) (n : nat) :
  x == y -> py_round x n = py_round y n.
Proof.
  intros H. unfold py_round.
  assert (Hs : x * inject_Z (10 ^ Z.of_nat n) == y * inject_Z (10 ^ Z.of_nat n))
    by (rewrite H; reflexivity).
  rewrite (round_half_even_proper _ _ Hs). reflexivity.
Qed.

Lemma py_round_mono (x y : Q) (n : nat) :
  x <= y -> py_round x n <= py_round y n.
Proof.
  intros Hxy. unfold py_round. rewrite !Qred_correct.
  pose proof (scale_pos n) as Hs. set (scale := inject_Z (10 ^ Z.of_nat n)) in *.
  assert (Hm : x * scale <= y * scale) by (apply Qmult_le_compat_r; lra).
  apply round_half_even_mono in Hm. rewrite Zle_Qle in Hm.
  apply Qle_shift_div_l; [exact Hs |].
  assert (E : inject_Z (round_half_even (x * scale)) / scale * scale
              == inject_Z (round_half_even (x * scale))) by (field; lra).
  rewrite E. exact Hm.
Qed.

(** A number with at most [n] decimals is its own rounding. *)
Lemma py_round_exact (x : Q) (n : nat) (z : Z) :
  x * inject_Z (10 ^ Z.of_nat n) == inject_Z z -> py_round x n == x.
Proof.
  intros H. unfold py_round. rewrite Qred_correct.
  rewrite (round_half_even_proper _ _ H), round_half_even_Z, <- H.
  pose proof (scale_pos n). field. lra.
Qed.

End Rounding.



(** ** The weight selector *)

Lemma get_weights_select (difficulty context : string) :
  _get_weights difficulty context
  = weight_map (select_weights difficulty context).
Proof.
  unfold _get_weights, select_weights, difficulty_weights, mentions.
  destruct (String.eqb (lower difficulty) "easy");
    [| destruct (String.eqb (lower difficulty) "hard")];
    (destruct (contains (lower context) "comprehension"
               || contains (lower context) "reading")%bool;
     [| destruct (contains (lower context) "spelling");
        [| destruct (contains (lower context) "grammar")]]);
    reflexivity.
Qed.

Lemma get_weights_lower (difficulty context : string) :
  _get_weights (lower difficulty) (lower context)
  = _get_weights difficulty context.
Proof.
  assert (Hidem : forall s, lower (lower s) = lower s).
  { induction s as [| c s IH]; simpl; [reflexivity |].
    rewrite IH. f_equal.
    destruct c as [[] [] [] [] [] [] [] []]; reflexivity. }
  unfold _get_weights. rewrite !Hidem. reflexivity.
Qed.

(** C4: the selector follows the difficulty table and then the first
    matching context rule (comprehension or reading, spelling, grammar),
    leaving the difficulty-adjusted weights when no rule matches; it
    depends on its two arguments up to letter case only; "Hard" with an
    empty context gives 50/25/10/15 and "easy" with "spelling practice"
    gives spelling 35, intent 30, vocabulary 20, grammar 25. *)
Theorem weight_selector_rules :
  _get_weights "Hard" EmptyString
  = weight_map {| w_intent := 50; w_vocabulary := 25;
                  w_spelling := 10; w_grammar := 15 |}
  /\ _get_weights "easy" "spelling practice"
     = weight_map {| w_intent := 30; w_vocabulary := 20;
                     w_spelling := 35; w_grammar := 25 |}
  /\ (forall difficulty context,
        _get_weights difficulty context
        = weight_map (select_weights difficulty context))
  /\ (forall d1 d2 c1 c2,
        lower d1 = lower d2 -> lower c1 = lower c2 ->
        _get_weights d1 c1 = _get_weights d2 c2).
Proof.
  split; [reflexivity |].
  split; [reflexivity |].
  split; [exact get_weights_select |].
  intros d1 d2 c1 c2 Hd Hc.
  rewrite <- (get_weights_lower d1 c1), <- (get_weights_lower d2 c2).
  rewrite Hd, Hc. reflexivity.
Qed.

Lemma weight_selector_rules_witness :
  _get_weights "HARD" "Reading Time" = _get_weights "hard" "reading time".
Proof.
  apply (proj2 (proj2 (proj2 weight_selector_rules))); reflexivity.
Defined.

(** ** Aggregation *)

Lemma weight_map_lookup (ws : WeightSet) :
  weight_map ws !! "intent" = Some (w_intent ws)
  /\ weight_map ws !! "vocabulary" = Some (w_vocabulary ws)
  /\ weight_map ws !! "spelling" = Some (w_spelling ws)
  /\ weight_map ws !! "grammar" = Some (w_grammar ws).
Proof. repeat split; reflexivity. Qed.

Lemma py_div_ok (x y : Q) : ~ (y == 0)%Q -> py_div x y = Ok (x / y)%Q.
Proof.
  intros Hy. unfold py_div.
  destruct (Qeq_bool y 0) eqn:E; [| reflexivity].
  apply Qeq_bool_iff in E. contradiction.
Qed.


(** With the four weights present, numeric scores and a non-zero
    [max_score], the arithmetic returns the values of the formulas. *)
Lemma aggregate_ok (ws : WeightSet) (i v s g m : Q) :
  ~ (m == 0)%Q ->
  aggregate (weight_map ws) (JNum i) (JNum v) (JNum s) (JNum g) (JNum m)
  = Ok (final_score_spec i v s g ws m,
        (final_score_spec i v s g ws m / m * 100)%Q,
        {| ps_intent := partial_spec i (w_intent ws) m;
           ps_vocabulary := partial_spec v (w_vocabulary ws) m;
           ps_spelling := partial_spec s (w_spelling ws) m;
           ps_grammar := partial_spec g (w_grammar ws) m |}).
Proof.
  intros Hm. unfold aggregate, weights_item.
  destruct (weight_map_lookup ws) as (-> & -> & -> & ->). cbn [bind as_number].
  rewrite (py_div_ok _ m Hm). reflexivity.
Qed.


Lemma final_score_spec_bounds (ws : WeightSet) (i v s g m : Q) :
  (0 <= w_intent ws)%Z -> (0 <= w_vocabulary ws)%Z ->
  (0 <= w_spelling ws)%Z -> (0 <= w_grammar ws)%Z ->
  weight_total ws = 100%Z ->
  (0 <= i <= 100)%Q -> (0 <= v <= 100)%Q ->
  (0 <= s <= 100)%Q -> (0 <= g <= 100)%Q ->
  (0 <= m)%Q ->
  (0 <= final_score_spec i v s g ws m <= m)%Q.
Proof.
  intros Hwi Hwv Hws Hwg Hsum [Hi0 Hi1] [Hv0 Hv1] [Hs0 Hs1] [Hg0 Hg1] Hm.
  unfold final_score_spec, weighted_avg_spec, weight_total in *.
  apply (f_equal inject_Z) in Hsum. rewrite !inject_Z_plus in Hsum.
  rewrite Zle_Qle in Hwi, Hwv, Hws, Hwg. change (inject_Z 0) with 0%Q in *.
  set (a := inject_Z (w_intent ws)) in *.
  set (b := inject_Z (w_vocabulary ws)) in *.
  set (c := inject_Z (w_spelling ws)) in *.
  set (d := inject_Z (w_grammar ws)) in *.
  assert (Hsum' : (a + b + c + d == 100)%Q) by (rewrite Hsum; reflexivity).
  clearbody a b c d. clear Hsum.
  set (t := ((i * a + v * b + s * c + g * d) / 100 / 100)%Q).
  assert (Ht : (0 <= t <= 1)%Q).
  { unfold t.
    assert (0 <= i * a)%Q by (apply Qmult_le_0_compat; assumption).
    assert (0 <= v * b)%Q by (apply Qmult_le_0_compat; assumption).
    assert (0 <= s * c)%Q by (apply Qmult_le_0_compat; assumption).
    assert (0 <= g * d)%Q by (apply Qmult_le_0_compat; assumption).
    assert (0 <= (100 - i) * a)%Q by (apply Qmult_le_0_compat; [lra | assumption]).
    assert (0 <= (100 - v) * b)%Q by (apply Qmult_le_0_compat; [lra | assumption]).
    assert (0 <= (100 - s) * c)%Q by (apply Qmult_le_0_compat; [lra | assumption]).
    assert (0 <= (100 - g) * d)%Q by (apply Qmult_le_0_compat; [lra | assumption]).
    assert (E : ((i * a + v * b + s * c + g * d) / 100 / 100
                 == (i * a + v * b + s * c + g * d) * (1 # 10000))%Q) by field.
    rewrite E. split; lra. }
  clearbody t. destruct Ht as [Ht0 Ht1].
  assert (0 <= t * m)%Q by (apply Qmult_le_0_compat; assumption).
  assert (0 <= (1 - t) * m)%Q by (apply Qmult_le_0_compat; [lra | assumption]).
  split; lra.
Qed.

(** C6: for a weight set of non-negative weights that sum to 100, scores
    in [0,100] and a positive max_score, the aggregation returns, and the
    final score it computes lies between 0 and max_score; so does its
    rounding to two decimals, the final_score field of the result, when
    max_score has at most two decimals. *)
Theorem final_score_within_max (ws : WeightSet) (i v s g m : Q) :
  (0 <= w_intent ws)%Z -> (0 <= w_vocabulary ws)%Z ->
  (0 <= w_spelling ws)%Z -> (0 <= w_grammar ws)%Z ->
  weight_total ws = 100%Z ->
  (0 <= i <= 100)%Q -> (0 <= v <= 100)%Q ->
  (0 <= s <= 100)%Q -> (0 <= g <= 100)%Q ->
  (0 < m)%Q ->
  exists final percentage partials,
    aggregate (weight_map ws) (JNum i) (JNum v) (JNum s) (JNum g) (JNum m)
    = Ok (final, percentage, partials)
    /\ (0 <= final <= m)%Q
    /\ (0 <= py_round final 2)%Q
    /\ (forall z : Z, (m * 100 == inject_Z z)%Q -> (py_round final 2 <= m)%Q).
Proof.
  intros Hwi Hwv Hws Hwg Hsum Hi Hv Hs Hg Hm.
  assert (Hb : (0 <= final_score_spec i v s g ws m <= m)%Q)
    by (apply final_score_spec_bounds; try assumption; lra).
  eexists _, _, _. split; [apply aggregate_ok; lra |].
  split; [exact Hb |]. split.
  - rewrite <- (py_round_exact 0 2 0) at 1 by reflexivity.
    apply py_round_mono, Hb.
  - intros z Hz. rewrite <- (py_round_exact m 2 z) at 2 by exact Hz.
    apply py_round_mono, Hb.
Qed.

Lemma final_score_within_max_witness :
  exists final percentage partials,
    aggregate
      (weight_map {| w_intent := 40; w_vocabulary := 25;
                     w_spelling := 15; w_grammar := 20 |})
      (JNum 80) (JNum 70) (JNum 60) (JNum 90) (JNum 10)
    = Ok (final, percentage, partials)
    /\ (0 <= final <= 10)%Q
    /\ (0 <= py_round final 2)%Q
    /\ (py_round final 2 <= 10)%Q.
Proof.
  destruct (final_score_within_max
              {| w_intent := 40; w_vocabulary := 25;
                 w_spelling := 15; w_grammar := 20 |} 80 70 60 90 10)
    as (final & percentage & partials & Hagg & Hb & H0 & Hz);
    cbn; try lia; try reflexivity; try (split; discriminate).
  exists final, percentage, partials.
  repeat split; try assumption; try apply Hb.
  apply (Hz 1000%Z). reflexivity.
Defined.

(** ** Weights that do not sum to 100 *)

Lemma sum_values_weight_map (ws : WeightSet) :
  sum_values (weight_map ws) = weight_total ws.
Proof.
  unfold sum_values, weight_map, weight_total.
  rewrite map_fold_insert_L; [| intros; lia | reflexivity].
  rewrite map_fold_insert_L; [| intros; lia | reflexivity].
  rewrite map_fold_insert_L; [| intros; lia | reflexivity].
  rewrite map_fold_insert_L; [| intros; lia | reflexivity].
  rewrite map_fold_empty. lia.
Qed.

Lemma final_score_spec_all_100 (ws : WeightSet) (m : Q) :
  (final_score_spec 100 100 100 100 ws m
   == inject_Z (weight_total ws) / 100 * m)%Q.
Proof.
  unfold final_score_spec, weighted_avg_spec, weight_total.
  rewrite !inject_Z_plus. field.
Qed.

Lemma spelling_rule_total (difficulty context : string) :
  mentions context "spelling" = true ->
  mentions context "comprehension" = false ->
  mentions context "reading" = false ->
  (105 <= weight_total (select_weights difficulty context))%Z.
Proof.
  intros Hs Hc Hr. unfold select_weights, difficulty_weights.
  rewrite Hc, Hr, Hs. cbn [orb].
  destruct (String.eqb (lower difficulty) "easy");
    [| destruct (String.eqb (lower difficulty) "hard")];
    unfold weight_total; cbn; lia.
Qed.

(** C10: whatever the difficulty, a context that mentions spelling (and
    neither comprehension nor reading) selects weights whose sum exceeds
    100 (110 for "Medium"); with all four scores at 100 and a positive
    max_score the final score computed is then strictly above
    max_score, as in the evaluation of a "Medium" question on a
    "Spelling bee" context out of 10, which returns 11. *)
Theorem spelling_context_overweights :
  (forall difficulty context,
      mentions context "spelling" = true ->
      mentions context "comprehension" = false ->
      mentions context "reading" = false ->
      (100 < sum_values (_get_weights difficulty context))%Z)
  /\ sum_values (_get_weights "Medium" "spelling") = 110%Z
  /\ (forall difficulty context (m : Q),
        mentions context "spelling" = true ->
        mentions context "comprehension" = false ->
        mentions context "reading" = false ->
        (0 < m)%Q ->
        exists final percentage partials,
          aggregate (_get_weights difficulty context)
            (JNum 100) (JNum 100) (JNum 100) (JNum 100) (JNum m)
          = Ok (final, percentage, partials)
          /\ (m < final)%Q)
  /\ (exists r,
        evaluate_answer json_loads_basic no_repr
          (question "Medium" "Spelling bee" 10)
          (scores_content "100" "100" "100" "100") = Ok r
        /\ (final_score r == 11)%Q /\ max_score r = JNum 10).
Proof.
  split; [| split; [| split]].
  - intros d c Hs Hc Hr.
    rewrite get_weights_select, sum_values_weight_map.
    pose proof (spelling_rule_total d c Hs Hc Hr). lia.
  - rewrite get_weights_select, sum_values_weight_map. reflexivity.
  - intros d c m Hs Hc Hr Hm.
    rewrite get_weights_select.
    eexists _, _, _. split; [apply aggregate_ok; lra |].
    rewrite final_score_spec_all_100.
    pose proof (spelling_rule_total d c Hs Hc Hr) as Ht.
    rewrite Zle_Qle in Ht.
    set (W := inject_Z (weight_total (select_weights d c))) in *.
    change (inject_Z 105) with 105%Q in Ht. clearbody W.
    assert (E : (W / 100 * m == m + (W - 100) * m * (1 # 100))%Q) by field.
    rewrite E.
    assert (0 < (W - 100) * m)%Q by (apply Qmult_lt_0_compat; lra).
    lra.
  - eexists. split; [vm_compute; reflexivity |]. split; reflexivity.
Qed.

Lemma spelling_context_overweights_witness :
  (100 < sum_values (_get_weights "hard" "Weekly SPELLING test"))%Z
  /\ exists final percentage partials,
       aggregate (_get_weights "hard" "Weekly SPELLING test")
         (JNum 100) (JNum 100) (JNum 100) (JNum 100) (JNum 5)
       = Ok (final, percentage, partials)
       /\ (5 < final)%Q.
Proof.
  split.
  - apply (proj1 spelling_context_overweights); reflexivity.
  - apply (proj1 (proj2 (proj2 spelling_context_overweights)));
      reflexivity.
Defined.

(** ** Feedback *)

Lemma dict_get_dict (d : list (string * json)) (k : string) (default : json) :
  dict_get (JDict d) k default = Ok (get_or d k default).
Proof. reflexivity. Qed.

Lemma dict_item_dims (result : json) (di dv ds dg : list (string * json)) :
  judgment_dims result di dv ds dg ->
  dict_item result "intent" = Ok (JDict di)
  /\ dict_item result "vocabulary" = Ok (JDict dv)
  /\ dict_item result "spelling" = Ok (JDict ds)
  /\ dict_item result "grammar" = Ok (JDict dg).
Proof.
  intros (top & -> & Hi & Hv & Hs & Hg). cbn [dict_item].
  rewrite Hi, Hv, Hs, Hg. repeat split.
Qed.

Lemma generate_remarks_ok (percentage : Q) (result : json)
    (di dv ds dg : list (string * json)) :
  judgment_dims result di dv ds dg ->
  _generate_remarks percentage result
  = Ok (remarks_spec percentage (get_or di "understood" JNull)
          (get_or ds "phonetic_tries" JNull)).
Proof.
  intros Hd. destruct (dict_item_dims _ _ _ _ _ Hd) as (Hi & _ & Hs & _).
  unfold _generate_remarks, remarks_spec.
  rewrite Hi, Hs. cbn [bind]. rewrite !dict_get_dict. cbn [bind].
  destruct (truthy (get_or di "understood" JNull));
    destruct (truthy (get_or ds "phonetic_tries" JNull)); reflexivity.
Qed.

Lemma str_items_map (l : list string) : str_items (map JStr l) = Ok l.
Proof.
  induction l as [| x l IH]; [reflexivity |].
  cbn [map str_items]. rewrite IH. reflexivity.
Qed.

Lemma slice_strs_map (n : nat) (l : list string) :
  slice_strs (JList (map JStr l)) n = Ok (firstn n l).
Proof. cbn [slice_strs]. rewrite firstn_map. apply str_items_map. Qed.

Section Suggestions.

Variable py_repr : json -> string.

Lemma generate_suggestions_ok (result : json)
    (di dv ds dg : list (string * json))
    (missed : list string) (improve : list json)
    (serrs gerrs : list (list (string * json))) :
  judgment_dims result di dv ds dg ->
  judgment_lists di dv ds dg missed improve serrs gerrs ->
  _generate_suggestions py_repr result
  = Ok (suggestions_spec py_repr missed improve serrs gerrs).
Proof.
  intros Hd (Hm & Himp & Hse & Hge).
  destruct (dict_item_dims _ _ _ _ _ Hd) as (Hi & Hv & Hs & Hg).
  unfold _generate_suggestions, suggestions_spec, fragments.
  rewrite Hi, Hv, Hs, Hg. cbn [bind]. rewrite !dict_get_dict. cbn [bind].
  rewrite Hm, Himp, Hse, Hge, slice_strs_map.
  destruct missed as [| m1 missed]; destruct improve as [| tip improve];
    destruct serrs as [| se serrs]; destruct gerrs as [| ge gerrs];
    cbn [truthy map bind item0 list_append app
         missed_fragment improve_fragment spelling_fragment
         grammar_fragment];
    rewrite ?dict_get_dict; cbn [bind list_append app]; reflexivity.
Qed.

(** C9: the suggestions are the fragments of the four rules, taken in
    the order concepts missed, vocabulary tip, spelling error, grammar
    error, each present only when its list is not empty; at most the
    first three are kept, joined by " | ", so the grammar fragment is
    dropped when all four qualify; without any fragment the text is
    "Keep up the good work!". *)
Theorem suggestions_capped_at_three (result : json)
    (di dv ds dg : list (string * json))
    (missed : list string) (improve : list json)
    (serrs gerrs : list (list (string * json))) :
  judgment_dims result di dv ds dg ->
  judgment_lists di dv ds dg missed improve serrs gerrs ->
  _generate_suggestions py_repr result
  = Ok (suggestions_spec py_repr missed improve serrs gerrs)
  /\ (missed = [] -> improve = [] -> serrs = [] -> gerrs = [] ->
      _generate_suggestions py_repr result = Ok "Keep up the good work!")
  /\ (missed <> [] -> improve <> [] -> serrs <> [] -> gerrs <> [] ->
      exists f1 f2 f3,
        missed_fragment missed = [f1]
        /\ improve_fragment py_repr improve = [f2]
        /\ spelling_fragment py_repr serrs = [f3]
        /\ _generate_suggestions py_repr result
           = Ok (f1 ++ " | " ++ f2 ++ " | " ++ f3)).
Proof.
  intros Hd Hl.
  pose proof (generate_suggestions_ok _ _ _ _ _ _ _ _ _ Hd Hl) as E.
  split; [exact E |]. split.
  - intros -> -> -> ->. exact E.
  - intros Hm Hi Hs Hg. rewrite E.
    destruct missed as [| m1 missed']; [congruence |].
    destruct improve as [| tip improve']; [congruence |].
    destruct serrs as [| se serrs']; [congruence |].
    destruct gerrs as [| ge gerrs']; [congruence |].
    eexists _, _, _. repeat split.
Qed.

End Suggestions.

Lemma suggestions_capped_at_three_witness :
  _generate_suggestions no_repr full_judgment
  = Ok "Include: scattering, wavelength | Word tip: say 'scatter' | Spelling: 'becaus' → 'because'".
Proof.
  apply (proj1 (suggestions_capped_at_three no_repr full_judgment
                  full_intent full_vocabulary full_spelling full_grammar
                  ["scattering"; "wavelength"; "atmosphere"]
                  [JStr "say 'scatter'"; JStr "x"]
                  [[("word", JStr "becaus"); ("correct", JStr "because");
                    ("type", JStr "phonetic")]]
                  [[("type", JStr "tense")]]
                  ltac:(eexists; repeat split; reflexivity)
                  ltac:(repeat split; reflexivity))).
Defined.

Example suggestions_grammar_only :
  _generate_suggestions no_repr
    (JDict [("intent", JDict []); ("vocabulary", JDict []);
            ("spelling", JDict []); ("grammar", JDict full_grammar)])
  = Ok "Grammar: Check structure".
Proof. reflexivity. Qed.

Example remarks_excellent :
  _generate_remarks 95
    (JDict [("intent", JDict [("understood", JBool true)]);
            ("spelling", JDict [("phonetic_tries", JList [JStr "becaus"])])])
  = Ok "Excellent work! You understood the main idea. Good phonetic spelling attempts!".
Proof. reflexivity. Qed.

(** ** Evaluation *)

Section Evaluation.

Variable json_loads : string -> option json.
Variable py_repr : json -> string.

Lemma parse_response_ok (content text : string) (result : json)
    (di dv ds dg : list (string * json)) :
  clean_content content = Ok text ->
  json_loads text = Some result ->
  judgment_dims result di dv ds dg ->
  parse_response json_loads content
  = Ok (result, (get_or di "score" (JNum 0), get_or dv "score" (JNum 0),
                 get_or ds "score" (JNum 0), get_or dg "score" (JNum 0))).
Proof.
  intros Hc Hl (top & -> & Hi & Hv & Hs & Hg).
  unfold parse_response, loads, get_score.
  rewrite Hc. cbn [bind]. rewrite Hl. cbn [bind dict_get].
  rewrite Hi, Hv, Hs, Hg. reflexivity.
Qed.


(** The body of [evaluate_answer] after the [try] statement. *)
Lemma evaluate_answer_core (question_data qid : json) (content : string)
    (difficulty context : string) (m : Q) (result : json)
    (di dv ds dg : list (string * json)) (i v s g : Q)
    (missed : list string) (improve : list json)
    (serrs gerrs : list (list (string * json))) :
  question_fields question_data qid difficulty context m ->
  ~ (m == 0)%Q ->
  parse_or_fallback json_loads content
  = Ok (result, (JNum i, JNum v, JNum s, JNum g)) ->
  judgment_dims result di dv ds dg ->
  judgment_lists di dv ds dg missed improve serrs gerrs ->
  evaluate_answer json_loads py_repr question_data content
  = Ok (result_spec py_repr qid difficulty context m di dv ds dg i v s g
          missed improve serrs gerrs).
Proof.
  intros (fields & answer & -> & Hid & Ha & Hc & Hd & Hm) Hm0 Hp Hdims Hl.
  destruct (dict_item_dims _ _ _ _ _ Hdims) as (Hi & Hv & Hs & Hg).
  unfold evaluate_answer. rewrite !dict_get_dict. cbn [bind].
  rewrite Ha, Hc, Hd, Hm, Hid, Hp. rewrite !dict_get_dict. cbn [bind as_str].
  rewrite get_weights_select, (aggregate_ok _ _ _ _ _ _ Hm0). cbn [bind].
  rewrite (generate_remarks_ok _ _ _ _ _ _ Hdims).
  rewrite (generate_suggestions_ok _ _ _ _ _ _ _ _ _ _ Hdims Hl).
  cbn [bind]. rewrite Hi, Hv, Hs, Hg. cbn [bind].
  rewrite !dict_get_dict. reflexivity.
Qed.

End Evaluation.

(** ** The weighted score *)

(** The hypotheses of a run on a decodable response gathered in a lemma:
    the evaluation returns the record of the specification. *)
Lemma evaluate_answer_decoded
    (json_loads : string -> option json) (py_repr : json -> string)
    (question_data qid : json) (content text : string)
    (difficulty context : string) (m : Q) (result : json)
    (di dv ds dg : list (string * json)) (i v s g : Q)
    (missed : list string) (improve : list json)
    (serrs gerrs : list (list (string * json))) :
  decoded_run json_loads question_data qid content text difficulty context
    m result di dv ds dg i v s g missed improve serrs gerrs ->
  evaluate_answer json_loads py_repr question_data content
  = Ok (result_spec py_repr qid difficulty context m di dv ds dg i v s g
          missed improve serrs gerrs).
Proof.
  intros (Hq & Hm & Hc & Hl & Hdims & (Ei & Ev & Es & Eg) & Hlists).
  pose proof (parse_response_ok json_loads _ _ _ _ _ _ _ Hc Hl Hdims) as Hp.
  rewrite Ei, Ev, Es, Eg in Hp.
  apply evaluate_answer_core with (result := result); try assumption.
  unfold parse_or_fallback. rewrite Hp. reflexivity.
Qed.



(** ** The percentage *)





(** ** Scores taken from the response *)




(** ** Responses that cannot be used *)




(** ** A max_score of zero *)


(** An absent max_score is read as 1. *)
Lemma absent_max_score_is_one
    (json_loads : string -> option json) (py_repr : json -> string)
    (fields : list (string * json)) (content : string) :
  assoc "max_score" fields = None ->
  evaluate_answer json_loads py_repr (JDict fields) content
  = evaluate_answer json_loads py_repr
      (JDict (("max_score", JNum 1) :: fields)) content.
Proof.
  intros H. unfold evaluate_answer. cbn [dict_get assoc].
  rewrite H. reflexivity.
Qed.

(** C1: the evaluation of a question whose max_score is 0 raises
    [ZeroDivisionError], on a response that decodes as well as on one that
    falls back, where the claim has max_score treated as 1. *)
Theorem zero_max_score_raises :
  evaluate_answer json_loads_basic no_repr
    (question "Medium" EmptyString 0) (scores_content "80" "70" "60" "90")
  = Raise ZeroDivisionError
  /\ evaluate_answer json_loads_basic no_repr
       (question "Medium" EmptyString 0) "not json"
     = Raise ZeroDivisionError.
Proof. split; reflexivity. Qed.

(** ** A missing dimension *)


(** Absent fields inside the four dimensions are defaulted. *)
Example bare_dimensions_defaulted :
  exists r,
    evaluate_answer json_loads_basic no_repr
      (question "Medium" EmptyString 10) bare_dims_content = Ok r
    /\ intent_analysis r
       = {| intent_match_score := JNum 0; understood_concept := JBool true;
            key_concepts_identified := JList [];
            key_concepts_missed := JList [];
            intent_reasoning := JStr EmptyString |}
    /\ (final_score r == 0)%Q
    /\ remarks r = "Keep practicing!"
    /\ suggestions r = "Keep up the good work!".
Proof. eexists. split; [vm_compute; reflexivity |]. repeat split. Qed.

(** C2: a response that decodes as JSON and lacks the "intent" dimension,
    or every dimension, makes the evaluation raise [KeyError], where the
    claim has the missing data defaulted and a complete result returned. *)
Theorem missing_dimension_raises :
  json_loads_basic no_intent_content
  = Some (JDict [("vocabulary", JDict [("score", JNum 70)]);
                 ("spelling", JDict [("score", JNum 60)]);
                 ("grammar", JDict [("score", JNum 90)])])
  /\ evaluate_answer json_loads_basic no_repr
       (question "Medium" EmptyString 10) no_intent_content
     = Raise KeyError
  /\ evaluate_answer json_loads_basic no_repr
       (question "Medium" EmptyString 10) "{}"
     = Raise KeyError.
Proof. repeat split. Qed.

(** * Further properties of the code *)

(** ** Numbers: rounding error, partial scores, monotonicity *)

Section RoundingError.

Local Open Scope Q_scope.




Lemma final_score_spec_mono (ws : WeightSet) (i v s g i' v' s' g' m : Q) :
  (0 <= w_intent ws)%Z -> (0 <= w_vocabulary ws)%Z ->
  (0 <= w_spelling ws)%Z -> (0 <= w_grammar ws)%Z ->
  i <= i' -> v <= v' -> s <= s' -> g <= g' -> 0 <= m ->
  weighted_avg_spec i v s g ws <= weighted_avg_spec i' v' s' g' ws
  /\ final_score_spec i v s g ws m <= final_score_spec i' v' s' g' ws m.
Proof.
  intros Hwi Hwv Hws Hwg Hi Hv Hs Hg Hm.
  unfold final_score_spec, weighted_avg_spec.
  rewrite Zle_Qle in Hwi, Hwv, Hws, Hwg. change (inject_Z 0) with 0 in *.
  set (a := inject_Z (w_intent ws)) in *.
  set (b := inject_Z (w_vocabulary ws)) in *.
  set (c := inject_Z (w_spelling ws)) in *.
  set (d := inject_Z (w_grammar ws)) in *. clearbody a b c d.
  assert (0 <= (i' - i) * a) by (apply Qmult_le_0_compat; lra).
  assert (0 <= (v' - v) * b) by (apply Qmult_le_0_compat; lra).
  assert (0 <= (s' - s) * c) by (apply Qmult_le_0_compat; lra).
  assert (0 <= (g' - g) * d) by (apply Qmult_le_0_compat; lra).
  set (t := (i * a + v * b + s * c + g * d) / 100).
  set (t' := (i' * a + v' * b + s' * c + g' * d) / 100).
  assert (Ht : t <= t').
  { unfold t, t'.
    assert (E : forall x, x / 100 == x * (1 # 100)) by (intros; field).
    rewrite !E. lra. }
  clearbody t t'. split; [exact Ht |].
  assert (0 <= (t' - t) * m) by (apply Qmult_le_0_compat; lra).
  assert (E : forall x, x / 100 * m == x * m * (1 # 100)) by (intros; field).
  rewrite !E. lra.
Qed.


End RoundingError.

(** ** The selected weights *)

Lemma select_weights_table (difficulty context : string) :
  let ws := select_weights difficulty context in
  (30 <= w_intent ws <= 50 /\ 20 <= w_vocabulary ws <= 25
   /\ 10 <= w_spelling ws <= 35 /\ 15 <= w_grammar ws <= 35)%Z
  /\ (weight_total ws = 100 \/ weight_total ws = 105
      \/ weight_total ws = 110)%Z.
Proof.
  unfold select_weights, difficulty_weights, mentions, weight_total.
  destruct (String.eqb (lower difficulty) "easy");
    [| destruct (String.eqb (lower difficulty) "hard")];
    (destruct (contains (lower context) "comprehension"
               || contains (lower context) "reading")%bool;
     [| destruct (contains (lower context) "spelling");
        [| destruct (contains (lower context) "grammar")]]);
    cbn; lia.
Qed.

(** X1: whatever the difficulty and the context, the weight dictionary has
    the four keys, with intent in 30..50, vocabulary in 20..25, spelling
    in 10..35 and grammar in 15..35, and the weights sum to 100, 105 or
    110.  They sum to 100 exactly when the context mentions comprehension
    or reading, or mentions neither spelling nor grammar, or mentions
    grammar without spelling on a "hard" question. *)
Theorem weights_present_and_totals (difficulty context : string) :
  (exists wi wv ws wg,
      _get_weights difficulty context !! "intent" = Some wi
      /\ _get_weights difficulty context !! "vocabulary" = Some wv
      /\ _get_weights difficulty context !! "spelling" = Some ws
      /\ _get_weights difficulty context !! "grammar" = Some wg
      /\ (30 <= wi <= 50 /\ 20 <= wv <= 25
          /\ 10 <= ws <= 35 /\ 15 <= wg <= 35)%Z
      /\ sum_values (_get_weights difficulty context) = (wi + wv + ws + wg)%Z)
  /\ (sum_values (_get_weights difficulty context) = 100
      \/ sum_values (_get_weights difficulty context) = 105
      \/ sum_values (_get_weights difficulty context) = 110)%Z
  /\ (sum_values (_get_weights difficulty context) = 100%Z
      <-> (mentions context "comprehension" || mentions context "reading"
           || negb (mentions context "spelling")
              && (negb (mentions context "grammar")
                  || String.eqb (lower difficulty) "hard"))%bool = true).
Proof.
  rewrite get_weights_select, sum_values_weight_map.
  destruct (weight_map_lookup (select_weights difficulty context))
    as (Hi & Hv & Hs & Hg).
  pose proof (select_weights_table difficulty context) as [Hr Ht].
  split; [| split; [exact Ht |]].
  - eexists _, _, _, _. repeat split; try eassumption; apply Hr.
  - clear. unfold select_weights, difficulty_weights, mentions, weight_total.
    destruct (String.eqb (lower difficulty) "easy") eqn:Ee;
      [apply String.eqb_eq in Ee; rewrite Ee
      | destruct (String.eqb (lower difficulty) "hard")];
      destruct (contains (lower context) "comprehension");
      destruct (contains (lower context) "reading");
      destruct (contains (lower context) "spelling");
      destruct (contains (lower context) "grammar");
      cbn; split; intros H; try reflexivity; try discriminate H; try lia.
Qed.

Lemma weights_present_and_totals_witness :
  sum_values (_get_weights "Hard" "Grammar drill") = 100%Z
  /\ (mentions "Reading" "comprehension" || mentions "Reading" "reading"
      || negb (mentions "Reading" "spelling")
         && (negb (mentions "Reading" "grammar")
             || String.eqb (lower "easy") "hard"))%bool = true.
Proof.
  split.
  - apply (proj2 (proj2 (proj2 (weights_present_and_totals "Hard"
                                  "Grammar drill")))). reflexivity.
  - apply (proj1 (proj2 (proj2 (weights_present_and_totals "easy"
                                  "Reading")))). reflexivity.
Defined.

(** X2: under a context that mentions comprehension or reading the
    difficulty plays no part: every difficulty gets the weights 50, 25,
    10, 15.  Without such a context, a difficulty other than "easy" and
    "hard" (in any letter case) gets the weights of "Medium". *)
Theorem difficulty_ignored_or_defaulted :
  (forall difficulty context,
      (mentions context "comprehension" || mentions context "reading")%bool
      = true ->
      _get_weights difficulty context
      = weight_map {| w_intent := 50; w_vocabulary := 25;
                      w_spelling := 10; w_grammar := 15 |})
  /\ (forall difficulty context,
        String.eqb (lower difficulty) "easy" = false ->
        String.eqb (lower difficulty) "hard" = false ->
        _get_weights difficulty context = _get_weights "Medium" context).
Proof.
  split.
  - intros d c H. rewrite get_weights_select. unfold select_weights.
    rewrite H. reflexivity.
  - intros d c He Hh. rewrite !get_weights_select.
    unfold select_weights, difficulty_weights. rewrite He, Hh. reflexivity.
Qed.

Lemma difficulty_ignored_or_defaulted_witness :
  _get_weights "easy" "Reading log"
  = weight_map {| w_intent := 50; w_vocabulary := 25;
                  w_spelling := 10; w_grammar := 15 |}
  /\ _get_weights "Tricky" "grammar quiz" = _get_weights "Medium" "grammar quiz".
Proof.
  split.
  - apply (proj1 difficulty_ignored_or_defaulted). reflexivity.
  - apply (proj2 difficulty_ignored_or_defaulted); reflexivity.
Defined.

(** ** Scores, final score and remarks together *)

Lemma select_weights_nonneg (difficulty context : string) :
  (0 <= w_intent (select_weights difficulty context)
   /\ 0 <= w_vocabulary (select_weights difficulty context)
   /\ 0 <= w_spelling (select_weights difficulty context)
   /\ 0 <= w_grammar (select_weights difficulty context))%Z.
Proof.
  destruct (select_weights_table difficulty context) as [Hr _].
  cbv zeta in Hr. lia.
Qed.

Lemma percentage_is_weighted_avg (ws : WeightSet) (i v s g m : Q) :
  ~ (m == 0)%Q ->
  (final_score_spec i v s g ws m / m * 100 == weighted_avg_spec i v s g ws)%Q.
Proof. intros Hm. unfold final_score_spec. field. exact Hm. Qed.

(** A run with the scores 95, 92, 90 and 99 on a "Medium" question out
    of 10. *)
Lemma top_run :
  decoded_run json_loads_basic (question "Medium" EmptyString 10) (JStr "q1")
    (scores_content "95" "92" "90" "99") (scores_content "95" "92" "90" "99")
    "Medium" EmptyString 10%Q
    (JDict [("intent", JDict [("score", JNum 95)]);
            ("vocabulary", JDict [("score", JNum 92)]);
            ("spelling", JDict [("score", JNum 90)]);
            ("grammar", JDict [("score", JNum 99)])])
    [("score", JNum 95)] [("score", JNum 92)]
    [("score", JNum 90)] [("score", JNum 99)]
    95%Q 92%Q 90%Q 99%Q [] [] [] [].
Proof.
  repeat split; try reflexivity.
  - eexists _, _. repeat split; reflexivity.
  - discriminate.
  - eexists. repeat split; reflexivity.
Defined.

(** The same question with the scores 80, 70, 62 and 88. *)
Lemma fair_run :
  decoded_run json_loads_basic (question "Medium" EmptyString 10) (JStr "q1")
    (scores_content "80" "70" "62" "88") (scores_content "80" "70" "62" "88")
    "Medium" EmptyString 10%Q
    (JDict [("intent", JDict [("score", JNum 80)]);
            ("vocabulary", JDict [("score", JNum 70)]);
            ("spelling", JDict [("score", JNum 62)]);
            ("grammar", JDict [("score", JNum 88)])])
    [("score", JNum 80)] [("score", JNum 70)]
    [("score", JNum 62)] [("score", JNum 88)]
    80%Q 70%Q 62%Q 88%Q [] [] [] [].
Proof.
  repeat split; try reflexivity.
  - eexists _, _. repeat split; reflexivity.
  - discriminate.
  - eexists. repeat split; reflexivity.
Defined.



(** X4: on the same question with a positive max_score, a response whose
    four scores are at least those of another response gets a final_score
    and a percentage that are at least as high. *)
Theorem higher_scores_never_lower
    (json_loads : string -> option json) (py_repr : json -> string)
    (question_data qid : json) (difficulty context : string) (m : Q)
    (content text : string) (result : json)
    (di dv ds dg : list (string * json)) (i v s g : Q)
    (missed : list string) (improve : list json)
    (serrs gerrs : list (list (string * json)))
    (content' text' : string) (result' : json)
    (di' dv' ds' dg' : list (string * json)) (i' v' s' g' : Q)
    (missed' : list string) (improve' : list json)
    (serrs' gerrs' : list (list (string * json))) :
  decoded_run json_loads question_data qid content text difficulty context
    m result di dv ds dg i v s g missed improve serrs gerrs ->
  decoded_run json_loads question_data qid content' text' difficulty context
    m result' di' dv' ds' dg' i' v' s' g' missed' improve' serrs' gerrs' ->
  (0 < m)%Q ->
  (i <= i')%Q -> (v <= v')%Q -> (s <= s')%Q -> (g <= g')%Q ->
  exists r r',
    evaluate_answer json_loads py_repr question_data content = Ok r
    /\ evaluate_answer json_loads py_repr question_data content' = Ok r'
    /\ (final_score r <= final_score r')%Q
    /\ (percentage r <= percentage r')%Q.
Proof.
  intros Hrun Hrun' Hm Hi Hv Hs Hg.
  destruct (select_weights_nonneg difficulty context) as (Wi & Wv & Ws & Wg).
  assert (Hm' : (0 <= m)%Q) by lra.
  destruct (final_score_spec_mono (select_weights difficulty context)
              i v s g i' v' s' g' m Wi Wv Ws Wg Hi Hv Hs Hg Hm')
    as [Havg Hfin].
  eexists _, _.
  split; [apply (evaluate_answer_decoded _ py_repr _ _ _ _ _ _ _
                   _ _ _ _ _ _ _ _ _ _ _ _ _ Hrun) |].
  split; [apply (evaluate_answer_decoded _ py_repr _ _ _ _ _ _ _
                   _ _ _ _ _ _ _ _ _ _ _ _ _ Hrun') |].
  cbn [final_score percentage result_spec]. split.
  - apply py_round_mono, Hfin.
  - assert (Hne : ~ (m == 0)%Q) by lra.
    rewrite (py_round_proper _ _ 1 (percentage_is_weighted_avg _ i v s g m Hne)).
    rewrite (py_round_proper _ _ 1
               (percentage_is_weighted_avg _ i' v' s' g' m Hne)).
    apply py_round_mono, Havg.
Qed.

Lemma higher_scores_never_lower_witness :
  exists r r',
    evaluate_answer json_loads_basic no_repr
      (question "Medium" EmptyString 10)
      (scores_content "80" "70" "62" "88") = Ok r
    /\ evaluate_answer json_loads_basic no_repr
         (question "Medium" EmptyString 10)
         (scores_content "95" "92" "90" "99") = Ok r'
    /\ (final_score r <= final_score r')%Q
    /\ (percentage r <= percentage r')%Q.
Proof.
  apply (higher_scores_never_lower json_loads_basic no_repr _ _ _ _ _
           _ _ _ _ _ _ _ _ _ _ _ _ _ _ _
           _ _ _ _ _ _ _ _ _ _ _ _ _ _ _ fair_run top_run);
    first [reflexivity | discriminate].
Defined.





(** ** The exceptions that leave [evaluate_answer] *)



















(** ** Responses of the wrong shape *)

Lemma question_extraction_raises (question_data : json) (k : string)
    (default : json) (e : exn) :
  dict_get question_data k default = Raise e -> e = AttributeError.
Proof.
  destruct question_data; cbn; intros H; try discriminate H;
    injection H as <-; reflexivity.
Qed.

(** X8: when the cleaned response decodes to JSON that is not an object,
    or to an object in which a dimension is present without being an
    object, [evaluate_answer] raises [AttributeError], whatever the
    question. *)
Theorem wrong_shape_raises_attribute_error
    (json_loads : string -> option json) (py_repr : json -> string)
    (question_data : json) (content text : string) (decoded : json) :
  clean_content content = Ok text ->
  json_loads text = Some decoded ->
  (forall top, decoded <> JDict top)
  \/ (exists top dim v,
         decoded = JDict top
         /\ In dim ["intent"; "vocabulary"; "spelling"; "grammar"]
         /\ assoc dim top = Some v
         /\ forall d, v <> JDict d) ->
  evaluate_answer json_loads py_repr question_data content
  = Raise AttributeError.
Proof.
  intros Hc Hl Hshape.
  assert (Hp : parse_or_fallback json_loads content = Raise AttributeError).
  { unfold parse_or_fallback, parse_response, loads.
    rewrite Hc. cbn [bind]. rewrite Hl. cbn [bind].
    assert (Hs : forall dim,
               (exists x, get_score decoded dim = Ok x)
               \/ get_score decoded dim = Raise AttributeError).
    { intros dim. unfold get_score.
      destruct decoded as [| | | | | top]; cbn; auto.
      destruct (match assoc dim top with Some v => v | None => JDict [] end);
        cbn; eauto. }
    assert (Hbad : exists dim,
               In dim ["intent"; "vocabulary"; "spelling"; "grammar"]
               /\ get_score decoded dim = Raise AttributeError).
    { destruct Hshape as [Hno | (top & dim & v & -> & Hin & Ha & Hv)].
      - exists "intent". split; [cbn; tauto |].
        destruct decoded; try reflexivity.
        exfalso. eapply Hno. reflexivity.
      - exists dim. split; [exact Hin |].
        unfold get_score. cbn [dict_get bind]. rewrite Ha.
        destruct v; try reflexivity. exfalso. eapply Hv. reflexivity. }
    destruct Hbad as (dim & Hin & Hb).
    destruct (Hs "intent") as [(i & Ei) | Ei]; rewrite Ei; cbn [bind];
      [| reflexivity].
    destruct (Hs "vocabulary") as [(v & Ev) | Ev]; rewrite Ev; cbn [bind];
      [| reflexivity].
    destruct (Hs "spelling") as [(s & Es) | Es]; rewrite Es; cbn [bind];
      [| reflexivity].
    destruct (Hs "grammar") as [(g & Eg) | Eg]; rewrite Eg; cbn [bind];
      [| reflexivity].
    exfalso. cbn in Hin.
    destruct Hin as [<- | [<- | [<- | [<- | []]]]]; congruence. }
  unfold evaluate_answer. rewrite Hp.
  repeat match goal with
         | |- bind (dict_get ?o ?k ?d) _ = _ =>
             let E := fresh "E" in
             destruct (dict_get o k d) as [? | ?] eqn:E; cbn [bind];
             [| apply question_extraction_raises in E; rewrite E; reflexivity]
         end.
  reflexivity.
Qed.

Lemma wrong_shape_raises_attribute_error_witness :
  evaluate_answer json_loads_basic no_repr (question "Medium" EmptyString 10)
    ("```json" ++ q "great answer" ++ "```")
  = Raise AttributeError
  /\ evaluate_answer json_loads_basic no_repr
       (question "Medium" EmptyString 10)
       ("{" ++ q "intent" ++ ": 80, " ++ q "grammar" ++ ": {}}")
     = Raise AttributeError.
Proof.
  split.
  - apply (wrong_shape_raises_attribute_error json_loads_basic no_repr _ _
             (q "great answer") (JStr "great answer"));
      [reflexivity | reflexivity | left; discriminate].
  - apply (wrong_shape_raises_attribute_error json_loads_basic no_repr _ _
             ("{" ++ q "intent" ++ ": 80, " ++ q "grammar" ++ ": {}}")
             (JDict [("intent", JNum 80); ("grammar", JDict [])]));
      [reflexivity | reflexivity |].
    right. exists [("intent", JNum 80); ("grammar", JDict [])], "intent",
             (JNum 80).
    repeat split; [cbn; tauto | discriminate].
Defined.

Lemma as_number_cases (v : json) :
  (exists x, as_number v = Ok x) \/ as_number v = Raise TypeError.
Proof. destruct v; cbn; eauto. Qed.

(** X9: on a well-formed question, a judgment of four dimension objects
    in which some score is neither a number nor a boolean (a string, a
    list, an object or null) makes [evaluate_answer] raise [TypeError]. *)
Theorem non_numeric_score_raises_type_error
    (json_loads : string -> option json) (py_repr : json -> string)
    (question_data qid : json) (content text : string)
    (difficulty context : string) (m : Q) (result : json)
    (di dv ds dg : list (string * json)) :
  question_fields question_data qid difficulty context m ->
  clean_content content = Ok text ->
  json_loads text = Some result ->
  judgment_dims result di dv ds dg ->
  as_number (get_or di "score" (JNum 0)) = Raise TypeError
  \/ as_number (get_or dv "score" (JNum 0)) = Raise TypeError
  \/ as_number (get_or ds "score" (JNum 0)) = Raise TypeError
  \/ as_number (get_or dg "score" (JNum 0)) = Raise TypeError ->
  evaluate_answer json_loads py_repr question_data content = Raise TypeError.
Proof.
  intros (fields & answer & -> & Hid & Ha & Hc & Hd & Hm) Hcl Hl Hdims Hbad.
  pose proof (parse_response_ok json_loads _ _ _ _ _ _ _ Hcl Hl Hdims) as Hp.
  unfold evaluate_answer. rewrite !dict_get_dict. cbn [bind].
  rewrite Ha, Hc, Hd, Hm, Hid. rewrite !dict_get_dict. cbn [bind].
  unfold parse_or_fallback. rewrite Hp. cbn [try_except bind as_str].
  rewrite get_weights_select. unfold aggregate, weights_item.
  destruct (weight_map_lookup (select_weights difficulty context))
    as (-> & -> & -> & ->). cbn [bind].
  destruct (as_number_cases (get_or di "score" (JNum 0))) as [(i & Ei) | Ei];
    rewrite Ei in *; cbn [bind]; [| reflexivity].
  destruct (as_number_cases (get_or dv "score" (JNum 0))) as [(v & Ev) | Ev];
    rewrite Ev in *; cbn [bind]; [| reflexivity].
  destruct (as_number_cases (get_or ds "score" (JNum 0))) as [(s & Es) | Es];
    rewrite Es in *; cbn [bind]; [| reflexivity].
  destruct (as_number_cases (get_or dg "score" (JNum 0))) as [(g & Eg) | Eg];
    rewrite Eg in *; cbn [bind]; [| reflexivity].
  exfalso. destruct Hbad as [H | [H | [H | H]]]; discriminate H.
Qed.

Lemma non_numeric_score_raises_type_error_witness :
  evaluate_answer json_loads_basic no_repr (question "Medium" EmptyString 10)
    (scores_content "80" (q "high") "60" "90")
  = Raise TypeError.
Proof.
  apply (non_numeric_score_raises_type_error json_loads_basic no_repr
           _ (JStr "q1") _ (scores_content "80" (q "high") "60" "90")
           "Medium" EmptyString 10%Q
           (JDict [("intent", JDict [("score", JNum 80)]);
                   ("vocabulary", JDict [("score", JStr "high")]);
                   ("spelling", JDict [("score", JNum 60)]);
                   ("grammar", JDict [("score", JNum 90)])])
           [("score", JNum 80)] [("score", JStr "high")]
           [("score", JNum 60)] [("score", JNum 90)]).
  - eexists _, _. repeat split; reflexivity.
  - reflexivity.
  - reflexivity.
  - eexists. repeat split; reflexivity.
  - right. left. reflexivity.
Defined.

(** ** Feedback on arbitrary judgments *)

Lemma startswith_app (a b : string) : startswith (a ++ b) a = true.
Proof.
  induction a as [| c a IH]; [destruct b; reflexivity |].
  simpl. rewrite Ascii.eqb_refl. exact IH.
Qed.

Lemma startswith_app_app (a x y : string) :
  startswith ((a ++ x) ++ y) a = true.
Proof.
  induction a as [| c a IH].
  - change ((EmptyString ++ x) ++ y) with (x ++ y).
    destruct (x ++ y); reflexivity.
  - change ((String c a ++ x) ++ y) with (String c ((a ++ x) ++ y)).
    simpl. rewrite Ascii.eqb_refl. exact IH.
Qed.

Lemma startswith_refl (a : string) : startswith a a = true.
Proof.
  induction a as [| c a IH]; [reflexivity |].
  simpl. rewrite Ascii.eqb_refl. exact IH.
Qed.

Lemma startswith_join_head (sep x : string) (l : list string) :
  startswith (join sep (x :: l)) x = true.
Proof.
  destruct l; cbn [join]; [apply startswith_refl | apply startswith_app].
Qed.

(** X10: whenever the remarks generator returns, on any judgment, the
    text opens with the tone sentence of the percentage, and it is the
    tone sentence alone when the judgment has neither a true understood
    flag nor phonetic attempts. *)
Theorem remarks_open_with_tone (percentage : Q) (result : json) (text : string) :
  _generate_remarks percentage result = Ok text ->
  startswith text (tone percentage) = true
  /\ (forall di ds,
         dict_item result "intent" = Ok (JDict di) ->
         dict_item result "spelling" = Ok (JDict ds) ->
         truthy (get_or di "understood" JNull) = false ->
         truthy (get_or ds "phonetic_tries" JNull) = false ->
         text = tone percentage).
Proof.
  unfold _generate_remarks. cbv zeta. intros H.
  destruct (dict_item result "intent") as [intent |]; [| discriminate H].
  cbn [bind] in H.
  destruct (dict_get intent "understood" JNull) as [u |] eqn:Eu;
    [| discriminate H].
  cbn [bind] in H.
  destruct (dict_item result "spelling") as [spelling |]; [| discriminate H].
  cbn [bind] in H.
  destruct (dict_get spelling "phonetic_tries" JNull) as [p |] eqn:Ep;
    [| discriminate H].
  cbn [bind] in H. injection H as <-. split.
  - destruct (truthy u); destruct (truthy p); cbn [list_append app];
      apply startswith_join_head.
  - intros di ds Hi Hs Hu Hp. injection Hi as ->. injection Hs as ->.
    rewrite dict_get_dict in Eu, Ep.
    injection Eu as <-. injection Ep as <-. rewrite Hu, Hp. reflexivity.
Qed.

Lemma remarks_open_with_tone_witness :
  startswith "Good effort! Good phonetic spelling attempts!" (tone 61) = true.
Proof.
  apply (proj1 (remarks_open_with_tone 61
                  (JDict [("intent", JDict []);
                          ("spelling",
                           JDict [("phonetic_tries", JList [JStr "becaus"])])])
                  "Good effort! Good phonetic spelling attempts!" eq_refl)).
Defined.

(** X11: whenever the suggestions generator returns, on any judgment, the
    text is the sentence "Keep up the good work!" or opens with the
    fragment of the first rule that applied: it is never empty. *)
Theorem suggestions_never_empty (py_repr : json -> string) (result : json)
    (text : string) :
  _generate_suggestions py_repr result = Ok text ->
  (text = "Keep up the good work!"
   \/ startswith text "Include: " = true
   \/ startswith text "Word tip: " = true
   \/ startswith text "Spelling: '" = true
   \/ startswith text "Grammar: " = true)
  /\ text <> EmptyString.
Proof.
  intros H.
  assert (Hcases : text = "Keep up the good work!"
                   \/ startswith text "Include: " = true
                   \/ startswith text "Word tip: " = true
                   \/ startswith text "Spelling: '" = true
                   \/ startswith text "Grammar: " = true).
  { revert H. unfold _generate_suggestions. cbv zeta.
    repeat match goal with
           | |- bind (if ?b then _ else _) _ = Ok _ -> _ =>
               destruct b; cbn [bind]
           | |- bind (bind ?m _) _ = Ok _ -> _ =>
               destruct m; cbn [bind]; [| discriminate]
           | |- bind ?m _ = Ok _ -> _ =>
               destruct m; cbn [bind]; [| discriminate]
           end;
      cbn [list_append app firstn]; intros H; injection H as <-;
      first [ left; reflexivity
            | right; left; cbn [join];
              first [apply startswith_app | apply startswith_app_app]
            | right; right; left; cbn [join];
              first [apply startswith_app | apply startswith_app_app]
            | right; right; right; left; cbn [join];
              first [apply startswith_app | apply startswith_app_app]
            | right; right; right; right; cbn [join];
              first [apply startswith_app | apply startswith_app_app] ]. }
  split; [exact Hcases |].
  intros ->. destruct Hcases as [H' | [H' | [H' | [H' | H']]]]; discriminate H'.
Qed.

Lemma suggestions_never_empty_witness :
  ("Grammar: Check structure" = "Keep up the good work!"
   \/ startswith "Grammar: Check structure" "Include: " = true
   \/ startswith "Grammar: Check structure" "Word tip: " = true
   \/ startswith "Grammar: Check structure" "Spelling: '" = true
   \/ startswith "Grammar: Check structure" "Grammar: " = true)
  /\ "Grammar: Check structure" <> EmptyString.
Proof.
  apply (suggestions_never_empty no_repr
           (JDict [("intent", JDict []); ("vocabulary", JDict []);
                   ("spelling", JDict []); ("grammar", JDict full_grammar)])).
  reflexivity.
Defined.

(** ** What the result depends on *)

(** X12: when the intent dimension carries no understood flag, the result
    reports understood_concept as true while the remarks leave out the
    sentence "You understood the main idea.", the two look-ups having
    different defaults. *)
Theorem absent_understood_flag_reported_true
    (json_loads : string -> option json) (py_repr : json -> string)
    (question_data qid : json) (content text : string)
    (difficulty context : string) (m : Q) (result : json)
    (di dv ds dg : list (string * json)) (i v s g : Q)
    (missed : list string) (improve : list json)
    (serrs gerrs : list (list (string * json))) :
  decoded_run json_loads question_data qid content text difficulty context
    m result di dv ds dg i v s g missed improve serrs gerrs ->
  assoc "understood" di = None ->
  exists r,
    evaluate_answer json_loads py_repr question_data content = Ok r
    /\ understood_concept (intent_analysis r) = JBool true
    /\ contains (remarks r) "You understood the main idea." = false.
Proof.
  intros Hrun Hu.
  eexists. split; [apply (evaluate_answer_decoded _ py_repr _ _ _ _ _ _ _
                            _ _ _ _ _ _ _ _ _ _ _ _ _ Hrun) |].
  cbn [understood_concept intent_analysis remarks result_spec]. cbv zeta.
  unfold get_or at 1. rewrite Hu. split; [reflexivity |].
  unfold remarks_spec, get_or at 1. rewrite Hu. cbn [truthy app].
  unfold tone.
  repeat match goal with
         | |- context [Qle_bool ?a ?b] => destruct (Qle_bool a b)
         end;
    destruct (truthy (get_or ds "phonetic_tries" JNull)); reflexivity.
Qed.

Lemma absent_understood_flag_reported_true_witness :
  exists r,
    evaluate_answer json_loads_basic no_repr
      (question "Medium" EmptyString 10)
      (scores_content "95" "92" "90" "99") = Ok r
    /\ understood_concept (intent_analysis r) = JBool true
    /\ contains (remarks r) "You understood the main idea." = false.
Proof.
  apply (absent_understood_flag_reported_true json_loads_basic no_repr
           _ _ _ _ _ _ _ _ _ _ _ _ _ _ _ _ _ _ _ _ top_run).
  reflexivity.
Defined.


Lemma tone_proper (x y : Q) : (x == y)%Q -> tone x = tone y.
Proof.
  intros H. unfold tone.
  assert (E : forall c, Qle_bool c x = Qle_bool c y).
  { intros c. destruct (Qle_bool c x) eqn:Ex; symmetry.
    - apply Qle_bool_iff. apply Qle_bool_iff in Ex. rewrite <- H. exact Ex.
    - destruct (Qle_bool c y) eqn:Ey; [| reflexivity].
      apply Qle_bool_iff in Ey. rewrite <- H in Ey.
      apply Qle_bool_iff in Ey. congruence. }
  rewrite !E. reflexivity.
Qed.



(** X14: the evaluation reads the question dictionary through
    question_id, context, difficulty and max_score only: two questions
    that agree on these four, each with an object (or nothing) under
    correct_answer, get the same outcome on the same response, whatever
    their question_text and reference answer. *)
Theorem outcome_ignores_question_text
    (json_loads : string -> option json) (py_repr : json -> string)
    (fields fields' : list (string * json)) (answer answer' : list (string * json))
    (content : string) :
  get_or fields "correct_answer" (JDict []) = JDict answer ->
  get_or fields' "correct_answer" (JDict []) = JDict answer' ->
  get_or fields "question_id" (JStr EmptyString)
  = get_or fields' "question_id" (JStr EmptyString) ->
  get_or fields "context" (JStr EmptyString)
  = get_or fields' "context" (JStr EmptyString) ->
  get_or fields "difficulty" (JStr "Medium")
  = get_or fields' "difficulty" (JStr "Medium") ->
  get_or fields "max_score" (JNum 1) = get_or fields' "max_score" (JNum 1) ->
  evaluate_answer json_loads py_repr (JDict fields) content
  = evaluate_answer json_loads py_repr (JDict fields') content.
Proof.
  intros Ha Ha' Hid Hc Hd Hm.
  unfold evaluate_answer. rewrite !dict_get_dict. cbn [bind].
  rewrite Ha, Ha', Hid, Hc, Hd, Hm. rewrite !dict_get_dict. reflexivity.
Qed.

Lemma outcome_ignores_question_text_witness :
  evaluate_answer json_loads_basic no_repr
    (question "Medium" "Spelling bee" 10) (scores_content "80" "70" "62" "88")
  = evaluate_answer json_loads_basic no_repr
      (JDict [("max_score", JNum 10); ("context", JStr "Spelling bee");
              ("question_id", JStr "q1");
              ("question_text", JStr "What makes rain?")])
      (scores_content "80" "70" "62" "88").
Proof.
  apply (outcome_ignores_question_text json_loads_basic no_repr _ _
           [("option_text", JStr "Light scatters.")] []); reflexivity.
Defined.

(** X15: the suggestions read no more than the first two missed concepts,
    the first vocabulary improvement, the first spelling error and the
    first grammar error: two judgments that agree on these get the same
    suggestions. *)
Theorem suggestions_read_first_items_only
    (py_repr : json -> string) (result result' : json)
    (di dv ds dg di' dv' ds' dg' : list (string * json))
    (missed missed' : list string) (improve improve' : list json)
    (serrs serrs' gerrs gerrs' : list (list (string * json))) :
  judgment_dims result di dv ds dg ->
  judgment_lists di dv ds dg missed improve serrs gerrs ->
  judgment_dims result' di' dv' ds' dg' ->
  judgment_lists di' dv' ds' dg' missed' improve' serrs' gerrs' ->
  firstn 2 missed = firstn 2 missed' ->
  firstn 1 improve = firstn 1 improve' ->
  firstn 1 serrs = firstn 1 serrs' ->
  firstn 1 gerrs = firstn 1 gerrs' ->
  _generate_suggestions py_repr result = _generate_suggestions py_repr result'.
Proof.
  intros Hd Hl Hd' Hl' Hm Hi Hs Hg.
  rewrite (generate_suggestions_ok py_repr _ _ _ _ _ _ _ _ _ Hd Hl).
  rewrite (generate_suggestions_ok py_repr _ _ _ _ _ _ _ _ _ Hd' Hl').
  f_equal. unfold suggestions_spec, fragments.
  assert (Em : missed_fragment missed = missed_fragment missed').
  { unfold missed_fragment. rewrite <- Hm.
    destruct missed as [| a [| b ?]]; destruct missed' as [| a' [| b' ?]];
      try discriminate Hm; reflexivity. }
  assert (Ei : improve_fragment py_repr improve
               = improve_fragment py_repr improve').
  { destruct improve; destruct improve'; try discriminate Hi;
      [reflexivity |]. injection Hi as ->. reflexivity. }
  assert (Es : spelling_fragment py_repr serrs
               = spelling_fragment py_repr serrs').
  { destruct serrs; destruct serrs'; try discriminate Hs;
      [reflexivity |]. injection Hs as ->. reflexivity. }
  assert (Eg : grammar_fragment py_repr gerrs
               = grammar_fragment py_repr gerrs').
  { destruct gerrs; destruct gerrs'; try discriminate Hg;
      [reflexivity |]. injection Hg as ->. reflexivity. }
  rewrite Em, Ei, Es, Eg. reflexivity.
Qed.

Lemma suggestions_read_first_items_only_witness :
  _generate_suggestions no_repr full_judgment
  = _generate_suggestions no_repr
      (JDict [("intent",
               JDict [("concepts_missed",
                       JList [JStr "scattering"; JStr "wavelength"])]);
              ("vocabulary", JDict [("improve", JList [JStr "say 'scatter'"])]);
              ("spelling", JDict full_spelling);
              ("grammar",
               JDict [("errors", JList [JDict [("type", JStr "tense")];
                                        JDict [("fix", JStr "use past")]])])]).
Proof.
  apply (suggestions_read_first_items_only no_repr _ _
           full_intent full_vocabulary full_spelling full_grammar
           [("concepts_missed", JList [JStr "scattering"; JStr "wavelength"])]
           [("improve", JList [JStr "say 'scatter'"])]
           full_spelling
           [("errors", JList [JDict [("type", JStr "tense")];
                              JDict [("fix", JStr "use past")]])]
           ["scattering"; "wavelength"; "atmosphere"]
           ["scattering"; "wavelength"]
           [JStr "say 'scatter'"; JStr "x"] [JStr "say 'scatter'"]
           [[("word", JStr "becaus"); ("correct", JStr "because");
             ("type", JStr "phonetic")]]
           [[("word", JStr "becaus"); ("correct", JStr "because");
             ("type", JStr "phonetic")]]
           [[("type", JStr "tense")]]
           [[("type", JStr "tense")]; [("fix", JStr "use past")]]);
    try reflexivity;
    first [eexists; repeat split; reflexivity | repeat split; reflexivity].
Defined.

(** ** Unwrapping a fenced response *)







(** ** The call to the assessor *)

Lemma contains_here (s p : string) :
  startswith s p = true -> contains s p = true.
Proof. intros H. destruct s; cbn [contains]; rewrite H; reflexivity. Qed.

Lemma contains_app_r (a s p : string) :
  contains s p = true -> contains (a ++ s) p = true.
Proof.
  intros H. induction a as [| c a IH]; [exact H |].
  change (String c a ++ s) with (String c (a ++ s)).
  cbn [contains]. rewrite IH. apply orb_true_r.
Qed.

Lemma startswith_app_l (s b p : string) :
  startswith s p = true -> startswith (s ++ b) p = true.
Proof.
  revert p. induction s as [| c s IH]; intros p H.
  - destruct p; [destruct (EmptyString ++ b); reflexivity | discriminate H].
  - change (String c s ++ b) with (String c (s ++ b)).
    destruct p as [| a p]; [reflexivity |].
    cbn [startswith] in *. apply andb_prop in H as [Ha Hp].
    rewrite Ha, (IH p Hp). reflexivity.
Qed.

Lemma contains_app_l (s b p : string) :
  contains s p = true -> contains (s ++ b) p = true.
Proof.
  induction s as [| c s IH]; intros H.
  - cbn [contains] in H. rewrite orb_false_r in H.
    apply contains_here. apply (startswith_app_l EmptyString b p H).
  - change (String c s ++ b) with (String c (s ++ b)).
    cbn [contains] in *. apply orb_prop in H as [H | H].
    + pose proof (startswith_app_l (String c s) b p H) as Hs.
      change (String c s ++ b) with (String c (s ++ b)) in Hs.
      rewrite Hs. reflexivity.
    + rewrite (IH H). apply orb_true_r.
Qed.

Lemma contains_join (sep line x : string) (l : list string) :
  In line l -> contains line x = true -> contains (join sep l) x = true.
Proof.
  intros Hin Hx. induction l as [| y l IH]; [destruct Hin |].
  destruct l as [| z l].
  - destruct Hin as [-> | []]. exact Hx.
  - change (join sep (y :: z :: l)) with (y ++ sep ++ join sep (z :: l)).
    destruct Hin as [-> | Hin].
    + apply contains_app_l, Hx.
    + apply contains_app_r, contains_app_r, IH, Hin.
Qed.

Lemma contains_suffix (a x : string) : contains (a ++ x) x = true.
Proof. apply contains_app_r, contains_here, startswith_refl. Qed.

(** X17: the prompt carries the question text, the reference answer, the
    student's answer, the difficulty and the context as they are
    formatted, each unchanged and unescaped. *)
Theorem prompt_embeds_inputs (py_repr : json -> string)
    (question_text correct_answer : json) (student_answer : string)
    (difficulty context : json) :
  let prompt := build_prompt py_repr question_text correct_answer
                  student_answer difficulty context in
  contains prompt ("QUESTION: " ++ format_value py_repr question_text) = true
  /\ contains prompt
       ("CORRECT ANSWER: " ++ format_value py_repr correct_answer) = true
  /\ contains prompt ("STUDENT'S ANSWER: " ++ student_answer) = true
  /\ contains prompt student_answer = true
  /\ contains prompt ("DIFFICULTY: " ++ format_value py_repr difficulty) = true
  /\ contains prompt ("CONTEXT: " ++ format_value py_repr context) = true.
Proof.
  cbv zeta. unfold build_prompt.
  repeat split;
    match goal with
    | |- contains (join _ _) ?x = true =>
        first
          [ apply (contains_join nl x);
            [cbn [In]; tauto | apply contains_here, startswith_refl]
          | apply (contains_join nl ("STUDENT'S ANSWER: " ++ x));
            [cbn [In]; tauto | apply contains_suffix] ]
    end.
Qed.

Section CallProperties.

Variable invoke : ChatOpenAI -> list message -> option string.
Variable json_loads : string -> option json.
Variable py_repr : json -> string.

Lemma extract_question_ok (fields answer : list (string * json)) :
  get_or fields "correct_answer" (JDict []) = JDict answer ->
  extract_question (JDict fields)
  = Ok (get_or fields "question_id" (JStr EmptyString),
        get_or fields "question_text" (JStr EmptyString),
        get_or answer "option_text" (JStr EmptyString),
        get_or fields "context" (JStr EmptyString),
        get_or fields "difficulty" (JStr "Medium"),
        get_or fields "max_score" (JNum 1)).
Proof.
  intros Ha. unfold extract_question. rewrite !dict_get_dict. cbn [bind].
  rewrite Ha. rewrite dict_get_dict. reflexivity.
Qed.

(** X18: when the question is a dictionary whose correct_answer is an
    object or absent, one call is made and no more, whatever comes back:
    it carries the configuration of the evaluator, the fixed system
    message and a prompt that holds the student's answer.  When the
    question is not a dictionary, or its correct_answer is not an object,
    [AttributeError] is raised before any call. *)
Theorem one_call_or_none (self : OptimizedAnswerEvaluator)
    (question_data : json) (student_answer : string) :
  (forall fields answer,
      question_data = JDict fields ->
      get_or fields "correct_answer" (JDict []) = JDict answer ->
      exists prompt,
        snd (evaluate_answer_call invoke json_loads py_repr self question_data
               student_answer)
        = [(llm self, [SystemMessage system_prompt; HumanMessage prompt])]
        /\ contains prompt student_answer = true)
  /\ ((forall fields, question_data <> JDict fields)
      \/ (exists fields v,
             question_data = JDict fields
             /\ assoc "correct_answer" fields = Some v
             /\ forall answer, v <> JDict answer) ->
      evaluate_answer_call invoke json_loads py_repr self question_data
        student_answer
      = (Returned (Raise AttributeError), [])).
Proof.
  split.
  - intros fields answer -> Ha. unfold evaluate_answer_call.
    rewrite (extract_question_ok fields answer Ha).
    eexists. split.
    + destruct (invoke _ _); reflexivity.
    + apply prompt_embeds_inputs.
  - intros Hbad. unfold evaluate_answer_call.
    assert (E : extract_question question_data = Raise AttributeError).
    { unfold extract_question.
      destruct Hbad as [Hno | (fields & v & -> & Ha & Hv)].
      - destruct question_data; try reflexivity.
        exfalso. eapply Hno. reflexivity.
      - rewrite !dict_get_dict. cbn [bind]. unfold get_or at 1. rewrite Ha.
        destruct v; try reflexivity. exfalso. eapply Hv. reflexivity. }
    rewrite E. reflexivity.
Qed.


End CallProperties.

Lemma one_call_or_none_witness :
  (exists prompt,
      snd (evaluate_answer_call (answering "{}") json_loads_basic no_repr
             (__init__ no_env "gpt-4" (1 # 5))
             (question "Medium" EmptyString 10) "Becaus the sky is blu")
      = [(llm (__init__ no_env "gpt-4" (1 # 5)),
          [SystemMessage system_prompt; HumanMessage prompt])]
      /\ contains prompt "Becaus the sky is blu" = true)
  /\ evaluate_answer_call (answering "{}") json_loads_basic no_repr
       (__init__ no_env "gpt-4" (1 # 5))
       (JDict [("correct_answer", JStr "Light scatters.")])
       "Becaus the sky is blu"
     = (Returned (Raise AttributeError), []).
Proof.
  split.
  - apply (proj1 (one_call_or_none (answering "{}") json_loads_basic no_repr
                    (__init__ no_env "gpt-4" (1 # 5))
                    (question "Medium" EmptyString 10)
                    "Becaus the sky is blu")
             _ [("option_text", JStr "Light scatters.")] eq_refl eq_refl).
  - apply (proj2 (one_call_or_none (answering "{}") json_loads_basic no_repr
                    (__init__ no_env "gpt-4" (1 # 5))
                    (JDict [("correct_answer", JStr "Light scatters.")])
                    "Becaus the sky is blu")).
    right. exists [("correct_answer", JStr "Light scatters.")],
             (JStr "Light scatters.").
    repeat split. discriminate.
Defined.


(** X20: [quick_evaluate] runs "gpt-5-mini" at temperature 1, the default
    temperature 0.2 being overridden for every model whose name holds
    "gpt-5", and "gpt-4" at temperature 0.2; the key is read from
    OPENAI_API_KEY in both cases. *)
Theorem quick_evaluate_configuration
    (invoke : ChatOpenAI -> list message -> option string)
    (json_loads : string -> option json) (py_repr : json -> string)
    (getenv : string -> option string)
    (question_data : json) (student_answer : string) (use_gpt4 : bool)
    (fields answer : list (string * json)) :
  question_data = JDict fields ->
  get_or fields "correct_answer" (JDict []) = JDict answer ->
  (forall name t1 t2,
      contains name "gpt-5" = true ->
      __init__ getenv name t1 = __init__ getenv name t2
      /\ temperature (llm (__init__ getenv name t1)) = 1%Q)
  /\ exists messages,
       snd (quick_evaluate invoke json_loads py_repr getenv question_data
              student_answer use_gpt4)
       = [({| model := if use_gpt4 then "gpt-4" else "gpt-5-mini";
              temperature := if use_gpt4 then (1 # 5)%Q else 1%Q;
              api_key := getenv "OPENAI_API_KEY" |}, messages)].
Proof.
  intros -> Ha. split.
  - intros name t1 t2 H. unfold __init__. rewrite H. split; reflexivity.
  - unfold quick_evaluate, evaluate_answer_call.
    rewrite (extract_question_ok fields answer Ha).
    destruct use_gpt4; cbv zeta;
      match goal with
      | |- context [invoke ?c ?ms] => destruct (invoke c ms)
      end; eexists; reflexivity.
Qed.

Lemma quick_evaluate_configuration_witness :
  exists messages,
    snd (quick_evaluate (answering "{}") json_loads_basic no_repr no_env
           (question "Medium" EmptyString 10) "Becaus the sky is blu" false)
    = [({| model := "gpt-5-mini"; temperature := 1%Q; api_key := None |},
        messages)].
Proof.
  apply (proj2 (quick_evaluate_configuration (answering "{}") json_loads_basic
                  no_repr no_env (question "Medium" EmptyString 10)
                  "Becaus the sky is blu" false _
                  [("option_text", JStr "Light scatters.")]
                  eq_refl eq_refl)).
Defined.

(** ** The max_score and the missing data, in general *)

(** X21: a question without max_score is evaluated as the same question
    with max_score 1. *)
Theorem absent_max_score_defaults_to_one
    (json_loads : string -> option json) (py_repr : json -> string)
    (fields : list (string * json)) (content : string) :
  assoc "max_score" fields = None ->
  dict_get (JDict fields) "max_score" (JNum 1) = Ok (JNum 1)
  /\ evaluate_answer json_loads py_repr (JDict fields) content
     = evaluate_answer json_loads py_repr
         (JDict (("max_score", JNum 1) :: fields)) content.
Proof.
  intros H. split.
  - cbn [dict_get]. rewrite H. reflexivity.
  - unfold evaluate_answer. cbn [dict_get assoc]. rewrite H. reflexivity.
Qed.

Lemma absent_max_score_defaults_to_one_witness :
  evaluate_answer json_loads_basic no_repr
    (JDict [("question_id", JStr "q7"); ("difficulty", JStr "Hard")])
    (scores_content "80" "70" "62" "88")
  = evaluate_answer json_loads_basic no_repr
      (JDict [("max_score", JNum 1); ("question_id", JStr "q7");
              ("difficulty", JStr "Hard")])
      (scores_content "80" "70" "62" "88").
Proof.
  apply (proj2 (absent_max_score_defaults_to_one json_loads_basic no_repr
                  [("question_id", JStr "q7"); ("difficulty", JStr "Hard")]
                  (scores_content "80" "70" "62" "88") eq_refl)).
Defined.





(** X24: on a well-formed question with a non-zero max_score, a response
    whose four dimensions are empty objects gets every default: scores 0,
    final_score and percentage 0, understood_concept true, empty lists
    and notes, the remarks "Keep practicing!" and the suggestions
    "Keep up the good work!". *)
Theorem empty_dimensions_get_defaults
    (json_loads : string -> option json) (py_repr : json -> string)
    (question_data qid : json) (content text : string)
    (difficulty context : string) (m : Q) (result : json) :
  question_fields question_data qid difficulty context m ->
  ~ (m == 0)%Q ->
  clean_content content = Ok text ->
  json_loads text = Some result ->
  judgment_dims result [] [] [] [] ->
  exists r,
    evaluate_answer json_loads py_repr question_data content = Ok r
    /\ intent_analysis r
       = {| intent_match_score := JNum 0; understood_concept := JBool true;
            key_concepts_identified := JList [];
            key_concepts_missed := JList [];
            intent_reasoning := JStr EmptyString |}
    /\ vocabulary_analysis r
       = {| vocabulary_score := JNum 0; appropriate_words := JList [];
            suggested_improvements := JList [];
            vocabulary_reasoning := JStr EmptyString |}
    /\ spelling_analysis r
       = {| spelling_score := JNum 0; misspelled_words := JList [];
            phonetic_attempts := JList [];
            spelling_reasoning := JStr EmptyString |}
    /\ grammar_analysis r
       = {| grammar_score := JNum 0; grammar_errors := JList [];
            grammar_strengths := JList [];
            grammar_reasoning := JStr EmptyString |}
    /\ (final_score r == 0)%Q /\ (percentage r == 0)%Q
    /\ remarks r = "Keep practicing!"
    /\ suggestions r = "Keep up the good work!".
Proof.
  intros Hq Hm Hc Hl Hdims.
  assert (Hrun : decoded_run json_loads question_data qid content text
                   difficulty context m result [] [] [] [] 0 0 0 0
                   [] [] [] []).
  { repeat split; try assumption; reflexivity. }
  eexists. split; [apply (evaluate_answer_decoded _ py_repr _ _ _ _ _ _ _
                            _ _ _ _ _ _ _ _ _ _ _ _ _ Hrun) |].
  assert (E0 : (final_score_spec 0 0 0 0 (select_weights difficulty context) m
                == 0)%Q)
    by (unfold final_score_spec, weighted_avg_spec; field).
  assert (Ep : (final_score_spec 0 0 0 0 (select_weights difficulty context) m
                / m * 100 == 0)%Q)
    by (unfold final_score_spec, weighted_avg_spec; field; exact Hm).
  cbn [intent_analysis vocabulary_analysis spelling_analysis grammar_analysis
       final_score percentage remarks suggestions result_spec]. cbv zeta.
  split; [reflexivity |]. split; [reflexivity |]. split; [reflexivity |].
  split; [reflexivity |].
  split; [rewrite (py_round_proper _ _ 2 E0); reflexivity |].
  split; [rewrite (py_round_proper _ _ 1 Ep); reflexivity |].
  split; [| reflexivity].
  unfold remarks_spec. rewrite (tone_proper _ _ Ep). reflexivity.
Qed.

Lemma empty_dimensions_get_defaults_witness :
  exists r,
    evaluate_answer json_loads_basic no_repr
      (question "Hard" "Grammar drill" 20) bare_dims_content = Ok r
    /\ (final_score r == 0)%Q
    /\ remarks r = "Keep practicing!"
    /\ suggestions r = "Keep up the good work!".
Proof.
  destruct (empty_dimensions_get_defaults json_loads_basic no_repr
              (question "Hard" "Grammar drill" 20) (JStr "q1")
              bare_dims_content bare_dims_content "Hard" "Grammar drill" 20%Q
              (JDict [("intent", JDict []); ("vocabulary", JDict []);
                      ("spelling", JDict []); ("grammar", JDict [])]))
    as (r & Hr & _ & _ & _ & _ & Hf & _ & Hrem & Hsug).
  - eexists _, _. repeat split; reflexivity.
  - discriminate.
  - reflexivity.
  - reflexivity.
  - eexists. repeat split; reflexivity.
  - exists r. repeat split; assumption.
Defined.


